(** * copycode: the project-snapshot builder of [copycode.py]

    A shallow embedding of [get_project_structure], of the script around
    it and of the parts of the Python runtime they call (string methods,
    integer division and float formatting, [os.path], [pathlib], [os.walk]
    and its recursion limit) over a tree-shaped model of the file system,
    followed by the properties of the builder and of the script.

    Conventions.  A Python [str] is a Rocq [string] holding its UTF-8 bytes;
    searching, splitting and comparing such strings agree with the same
    operations on code points, and the one place that slices by code points
    ([indent[:-4]]) counts UTF-8 lead bytes.  Python integers are [Z].
    [os.sep] is ["/"] (POSIX). *)

From Stdlib Require Import String Ascii List ZArith Lia Bool.
From Stdlib Require Import Permutation Sorted OrderedTypeEx.
From Stdlib Require Import DecimalString.
Import ListNotations.

Open Scope string_scope.
Open Scope Z_scope.

(* ================================================================== *)
(** ** Python strings *)

Module PyStr.

(** The line feed, ["\n"]. *)
Definition nl : string := String (ascii_of_nat 10) "".

(** [len(s)]. *)
Definition len (s : string) : Z := Z.of_nat (String.length s).

(** [s.startswith(p)]. *)
Definition startswith (s p : string) : bool := String.prefix p s.

(** [sub in s]. *)
Fixpoint contains (sub s : string) : bool :=
  String.prefix sub s ||
  match s with
  | "" => false
  | String _ s' => contains sub s'
  end.

(** [s.endswith(p)]. *)
Fixpoint endswith (s p : string) : bool :=
  String.eqb s p ||
  match s with
  | "" => false
  | String _ s' => endswith s' p
  end.

(** [s[n:]] for [0 <= n]. *)
Fixpoint drop (n : nat) (s : string) : string :=
  match n, s with
  | O, _ => s
  | S _, "" => ""
  | S k, String _ s' => drop k s'
  end.

(** [s * n]. *)
Fixpoint repeat (s : string) (n : nat) : string :=
  match n with
  | O => ""
  | S k => s ++ repeat s k
  end.

(** Scanning for non-overlapping occurrences of [old], left to right:
    [skip] counts the characters of the occurrence found last that are
    still to be passed over. *)
Fixpoint replace_scan (old new : string) (skip : nat) (s : string) : string :=
  match s with
  | "" => ""
  | String c s' =>
      match skip with
      | S k => replace_scan old new k s'
      | O =>
          if String.prefix old s
          then new ++ replace_scan old new (String.length old - 1) s'
          else String c (replace_scan old new 0 s')
      end
  end.

(** With an empty [old], [new] goes before every character and at the end. *)
Fixpoint replace_empty (new s : string) : string :=
  match s with
  | "" => new
  | String c s' => new ++ String c (replace_empty new s')
  end.

(** [s.replace(old, new)]. *)
Definition replace (s old new : string) : string :=
  match old with
  | "" => replace_empty new s
  | _ => replace_scan old new 0 s
  end.

Fixpoint count_scan (sub : string) (skip : nat) (s : string) : Z :=
  match s with
  | "" => 0
  | String _ s' =>
      match skip with
      | S k => count_scan sub k s'
      | O =>
          if String.prefix sub s
          then 1 + count_scan sub (String.length sub - 1) s'
          else count_scan sub 0 s'
      end
  end.

(** [s.count(sub)]: the number of non-overlapping occurrences. *)
Definition count (s sub : string) : Z :=
  match sub with
  | "" => len s + 1
  | _ => count_scan sub 0 s
  end.

(** The highest index at or after [i] where [sub] occurs in the text whose
    tail from index [i] is [s]; [-1] when there is none. *)
Fixpoint rfind_from (sub s : string) (i : Z) : Z :=
  match s with
  | "" => if String.prefix sub s then i else -1
  | String _ s' =>
      let r := rfind_from sub s' (i + 1) in
      if 0 <=? r then r
      else if String.prefix sub s then i else -1
  end.

(** [s.rfind(sub)]. *)
Definition rfind (s sub : string) : Z := rfind_from sub s 0.

(** [s.split(sep)] for a one-character separator. *)
Fixpoint split (sep : ascii) (s : string) : list string :=
  match s with
  | "" => [""]
  | String c s' =>
      if Ascii.eqb c sep then "" :: split sep s'
      else match split sep s' with
           | [] => [String c ""]
           | w :: ws => String c w :: ws
           end
  end.

(** [sep.join(l)]. *)
Definition join (sep : string) (l : list string) : string :=
  String.concat sep l.

(** A byte that continues a UTF-8 sequence ([10xxxxxx]). *)
Definition utf8_continuation (c : ascii) : bool :=
  let n := N_of_ascii c in (128 <=? n)%N && (n <? 192)%N.

(** Reading the bytes of a text from its end: drop bytes until [n] code
    points have gone. *)
Fixpoint drop_code_points (n : nat) (rev_bytes : list ascii) : list ascii :=
  match n, rev_bytes with
  | O, _ => rev_bytes
  | S _, [] => []
  | S k, c :: rest =>
      if utf8_continuation c then drop_code_points n rest
      else drop_code_points k rest
  end.

(** [s[:-n]] for [0 < n]: all but the last [n] code points. *)
Definition drop_last (n : nat) (s : string) : string :=
  string_of_list_ascii
    (rev (drop_code_points n (rev (list_ascii_of_string s)))).

(** [str(n)] for an integer. *)
Definition str_int (n : Z) : string :=
  NilEmpty.string_of_int (Z.to_int n).

(** The integer nearest to [n / d] for [0 < d], a tie going to the even
    one. *)
Definition round_half_even (n d : Z) : Z :=
  let q := n / d in
  let r := n mod d in
  if 2 * r <? d then q
  else if d <? 2 * r then q + 1
  else if Z.even q then q else q + 1.

(** [a / b] for integers [0 <= a] and [0 < b]: the binary floating-point
    number (binary64) nearest to the quotient, a tie going to the even
    significand, as the pair [(m, e)] that stands for [m * 2^e], with
    [2^52 <= m <= 2^53] unless [a] is 0.  Exponents are not bounded: the
    quotient of a file size by 1024 is far from both ends of the range. *)
Definition true_divide (a b : Z) : Z * Z :=
  if a <=? 0 then (0, 0)
  else
    let e0 := Z.log2 a - Z.log2 b - 52 in
    let num e := if 0 <=? e then a else a * 2 ^ (- e) in
    let den e := if 0 <=? e then b * 2 ^ e else b in
    let e := if num e0 <? den e0 * 2 ^ 52 then e0 - 1 else e0 in
    (round_half_even (num e) (den e), e).

(** The number of tenths that [format(x, ".1f")] prints for the float
    [x = m * 2^e]: the nearest to the exact value of [x], a tie going to
    the even one. *)
Definition tenths_of_float (x : Z * Z) : Z :=
  let '(m, e) := x in
  if 0 <=? e then 10 * m * 2 ^ e
  else round_half_even (10 * m) (2 ^ (- e)).

(** [f"{n / d:.1f}"] for integers [0 <= n] and [0 < d]: the quotient is
    rounded to a float first, and the float to tenths. *)
Definition format_1f (n d : Z) : string :=
  let tenths := tenths_of_float (true_divide n d) in
  str_int (tenths / 10) ++ "." ++ str_int (tenths mod 10).

End PyStr.

(* ================================================================== *)
(** ** Exceptions *)

(** A raised exception, known by what [str(e)] gives. *)
Inductive exn : Type := Exception (message : string).

Definition str_exn (e : exn) : string :=
  match e with Exception m => m end.

(** The outcome of a computation that may raise. *)
Inductive result (A : Type) : Type :=
| Ok (a : A)
| Raised (e : exn).

Arguments Ok {A} a.
Arguments Raised {A} e.

Definition bind {A B : Type} (m : result A) (k : A -> result B) : result B :=
  match m with
  | Ok a => k a
  | Raised e => Raised e
  end.

(** [try: body except Exception as e: handler(e)]. *)
Definition try_except {A : Type} (body : result A) (handler : exn -> A) : A :=
  match body with
  | Ok a => a
  | Raised e => handler e
  end.

Notation "x <- m ;; k" := (bind m (fun x => k))
  (at level 61, m at next level, right associativity).

(* ================================================================== *)
(** ** [os.path] (posixpath) and [pathlib] *)

Module PyPath.
Import PyStr.

Definition sep : string := "/".

(** [os.path.join(a, b)]. *)
Definition join (a b : string) : string :=
  if startswith b sep then b
  else if String.eqb a "" || endswith a sep then a ++ b
  else a ++ sep ++ b.

(** [os.path.join] applied to the components [l], one at least. *)
Definition join_all (l : list string) : string :=
  match l with
  | [] => ""
  | a :: p => fold_left join p a
  end.

(** [os.path.basename(p)]. *)
Definition basename (p : string) : string :=
  drop (Z.to_nat (rfind p sep + 1)) p.

(** [Path(name).suffix] for the name of a directory entry, as CPython 3.11
    has it: from the last ["."] on, unless that dot is the first or the
    last character of the name. *)
Definition suffix (name : string) : string :=
  let i := rfind name "." in
  if (0 <? i) && (i <? len name - 1) then drop (Z.to_nat i) name else "".

(** One turn of the loop of [normpath] over the components. *)
Definition normpath_step (initial_slashes : nat) (new_comps : list string)
    (comp : string) : list string :=
  if String.eqb comp "" || String.eqb comp "." then new_comps
  else if negb (String.eqb comp "..")
          || (Nat.eqb initial_slashes 0 && Nat.eqb (List.length new_comps) 0)
          || (negb (Nat.eqb (List.length new_comps) 0)
              && String.eqb (last new_comps "") "..")
  then (new_comps ++ [comp])%list
  else removelast new_comps.

(** [os.path.normpath(path)]. *)
Definition normpath (path : string) : string :=
  if String.eqb path "" then "."
  else
    let initial_slashes :=
      if startswith path sep then
        if startswith path (repeat sep 2) && negb (startswith path (repeat sep 3))
        then 2%nat else 1%nat
      else 0%nat in
    let comps := fold_left (normpath_step initial_slashes) (split "/" path) [] in
    let path' := repeat sep initial_slashes ++ PyStr.join sep comps in
    if String.eqb path' "" then "." else path'.

(** [os.path.abspath(path)] in a process whose working directory is [cwd]. *)
Definition abspath (cwd path : string) : string :=
  normpath (if startswith path sep then path else join cwd path).

(** The longest common leading part of two lists of components. *)
Fixpoint commonprefix (l1 l2 : list string) : list string :=
  match l1, l2 with
  | a :: l1', b :: l2' => if String.eqb a b then a :: commonprefix l1' l2' else []
  | _, _ => []
  end.

Definition nonempty (s : string) : bool := negb (String.eqb s "").

(** [os.path.relpath(path, start)]. *)
Definition relpath (cwd path start : string) : result string :=
  if String.eqb path "" then Raised (Exception "no path specified")
  else
    let start_list := filter nonempty (split "/" (abspath cwd start)) in
    let path_list := filter nonempty (split "/" (abspath cwd path)) in
    let i := List.length (commonprefix start_list path_list) in
    let rel_list :=
      (List.repeat ".." (List.length start_list - i)%nat ++ skipn i path_list)%list in
    match rel_list with
    | [] => Ok "."
    | _ => Ok (join_all rel_list)
    end.

End PyPath.

(* ================================================================== *)
(** ** The file system and [os.walk] *)

Module FS.
Import PyStr.

(** A directory entry that is not a directory: its name, what
    [os.path.getsize] gives for it and what opening it as UTF-8 text and
    reading it whole gives. *)
Record file : Type := File {
  f_name : string;
  f_getsize : result Z;
  f_read : result string
}.

Unset Elimination Schemes.

(** A directory: its name in its parent, whether [os.walk] lists it
    ([false]: [os.scandir] raises [OSError] there, or the entry is a
    symbolic link, which is not followed), and its entries in the order
    [os.scandir] gives them. *)
Inductive dir : Type :=
| Dir (d_name : string) (d_listed : bool)
      (d_files : list file) (d_dirs : list dir).
Set Elimination Schemes.

Definition d_name (d : dir) : string :=
  match d with Dir n _ _ _ => n end.

(** [name in dirs]. *)
Definition mem (name : string) (names : list string) : bool :=
  existsb (String.eqb name) names.

(** [for root, dirs, files in os.walk(top): body], top down, threading the
    state [S] of the loop.  [body] is given the path of the directory, the
    names of its sub-directories and its other entries, and gives back the
    list [dirs] as it left it: the walk then descends into the
    sub-directories still named there, in the order of the listing.  The
    name of the node the walk starts from is not consulted: that
    directory is known by [top] alone.  This is the loop of a call that
    returns; [Limits.walk] below is the loop with the recursion limit of
    [os.walk], which ends a call on too deep a tree. *)
Fixpoint walk {S : Type}
    (body : string -> list string -> list file -> S -> list string * S)
    (top : string) (d : dir) (st : S) : S :=
  match d with
  | Dir _ listed files subs =>
      if listed then
        let '(dirs, st1) := body top (map d_name subs) files st in
        fold_left
          (fun acc sub =>
             if mem (d_name sub) dirs
             then walk body (PyPath.join top (d_name sub)) sub acc
             else acc)
          subs st1
      else st
  end.

(** Insertion of a file into a list sorted by name, after the entries
    whose name is not greater. *)
Fixpoint insert_by_name (f : file) (l : list file) : list file :=
  match l with
  | [] => [f]
  | g :: l' =>
      if String.ltb (f_name f) (f_name g) then f :: l
      else g :: insert_by_name f l'
  end.

(** [sorted(files)]: by name, in code point order, stable. *)
Definition sorted (files : list file) : list file :=
  fold_left (fun acc f => insert_by_name f acc) files [].

(** The order of the names: [a] is not after [b]. *)
Definition name_le (a b : file) : Prop :=
  String.ltb (f_name b) (f_name a) = false.

End FS.

(* ================================================================== *)
(** ** [copycode.py] *)

Module CopyCode.
Import PyStr FS.

Definition IGNORED_DIRS : list string :=
  [ "__pycache__"; ".venv"; "venv"; "env";
    "node_modules"; ".git"; ".idea"; ".pytest_cache";
    ".vscode"; "build"; "dist"; "target";
    "migrations"; "coverage"; ".next";
    ".cache"; ".husky"; ".github" ]%list.

Definition INCLUDED_EXTENSIONS : list string :=
  [ ".py";
    ".jsx"; ".tsx"; ".js"; ".ts";
    ".css"; ".scss"; ".sass";
    ".html";
    "";
    ".yml"; ".yaml";
    ".dockerfile";
    ".json";
    ".lock";
    ".txt";
    ".config.js" ]%list.

Definition IGNORED_FILES : list string :=
  [ "setupTests."; "reportWebVitals.";
    ".test."; ".spec.";
    "types.d.ts";
    ".gitignore" ]%list.

Definition IMPORTANT_FILES : list string :=
  [ "package.json";
    "package-lock.json";
    "yarn.lock";
    "requirements.txt";
    "Dockerfile";
    "docker-compose.yml";
    "tailwind.config.js";
    "postcss.config.js" ]%list.

(** The two lists the function builds. *)
Record state : Type := State {
  output : list string;
  file_contents : list string
}.

Definition output_append (st : state) (line : string) : state :=
  State (output st ++ [line])%list (file_contents st).

Definition file_contents_extend (st : state) (lines : list string) : state :=
  State (output st) (file_contents st ++ lines)%list.

(** [any(ignore in file for ignore in IGNORED_FILES)]. *)
Definition ignored_file (file : string) : bool :=
  existsb (fun ignore => contains ignore file) IGNORED_FILES.

(** [(Path(file).suffix in INCLUDED_EXTENSIONS) or (file in IMPORTANT_FILES)]. *)
Definition included_file (file : string) : bool :=
  mem (PyPath.suffix file) INCLUDED_EXTENSIONS || mem file IMPORTANT_FILES.

(** [d not in IGNORED_DIRS and not d.startswith('.')]. *)
Definition kept_dir (d : string) : bool :=
  negb (mem d IGNORED_DIRS) && negb (startswith d ".").

(** [root.replace(start_path, '').count(os.sep)]. *)
Definition level_of (start_path root : string) : Z :=
  count (replace root start_path "") PyPath.sep.

(** [max_depth != -1 and level > max_depth]. *)
Definition too_deep (max_depth level : Z) : bool :=
  negb (max_depth =? -1) && (max_depth <? level).

Definition indent_unit : string := "│   ".
Definition branch : string := "├── ".
Definition dashes : string := repeat "-" 40.

(** The lines of the [try] block for one file: what it hands to
    [file_contents.extend], or the exception it raises. *)
Definition try_read (cwd start_path root : string) (f : file)
    : result (list string) :=
  let file := f_name f in
  let file_path := PyPath.join root file in
  file_size <- f_getsize f ;;
  if 100 * 1024 <? file_size then
    Ok [ (nl ++ "File: " ++ file ++ " (skipped - too large, "
             ++ format_1f file_size 1024 ++ "KB)")%string;
         "" ]%list
  else
    content <- f_read f ;;
    rel_path <- PyPath.relpath cwd file_path start_path ;;
    Ok [ (nl ++ "File: " ++ rel_path)%string;
         dashes;
         content;
         dashes;
         "" ]%list.

(** The lines of the [except] block. *)
Definition read_error (file : string) (e : exn) : list string :=
  [ ("Error reading " ++ file ++ ": " ++ str_exn e)%string; "" ]%list.

(** The body of [for file in sorted(files)]. *)
Definition file_step (cwd start_path root indent : string)
    (st : state) (f : file) : state :=
  let file := f_name f in
  if ignored_file file then st
  else if included_file file then
    let st := output_append st (indent ++ branch ++ file) in
    file_contents_extend st
      (try_except (try_read cwd start_path root f) (read_error file))
  else st.

(** The body of [for root, dirs, files in os.walk(start_path)]; the list
    given back is [dirs] as the body leaves it. *)
Definition dir_step (cwd start_path : string) (max_depth : Z)
    (root : string) (dirs : list string) (files : list file) (st : state)
    : list string * state :=
  let level := level_of start_path root in
  if too_deep max_depth level then ([], st)
  else
    let dirs := filter kept_dir dirs in
    let indent := repeat indent_unit (Z.to_nat level) in
    let dir_name := PyPath.basename root in
    let st :=
      if 0 <? level
      then output_append st (drop_last 4 indent ++ branch ++ dir_name ++ "/")
      else output_append st (dir_name ++ "/") in
    let st := fold_left (file_step cwd start_path root indent) (sorted files) st in
    (dirs, st).

Definition initial : state :=
  State ["Directory Structure:"] [(nl ++ "File Contents:" ++ nl)%string].

(** The two lists when the loop over [os.walk(start_path)] is over, in a
    process whose working directory is [cwd], [fs] being the directory
    that [start_path] names. *)
Definition run (cwd : string) (fs : dir) (start_path : string)
    (max_depth : Z) : state :=
  walk (dir_step cwd start_path max_depth) start_path fs initial.

(** [get_project_structure(start_path, max_depth)]: the text that the
    call returns ([Limits.get_project_structure] says when it returns). *)
Definition get_project_structure (cwd : string) (fs : dir)
    (start_path : string) (max_depth : Z) : string :=
  let st := run cwd fs start_path max_depth in
  join nl (output st ++ file_contents st)%list.

End CopyCode.

(* ================================================================== *)
(** ** What a run leaves in the two lists

    The directories whose loop body got past the depth check, in the order
    of the walk, and what each of them adds to [output] and to
    [file_contents]. *)

Module Rendering.
Import PyStr FS CopyCode.

(** A file that gets past both tests of the loop over the files. *)
Definition eligible (f : file) : bool :=
  negb (ignored_file (f_name f)) && included_file (f_name f).

Definition indent_of (start_path root : string) : string :=
  repeat indent_unit (Z.to_nat (level_of start_path root)).

(** The line of [output] for the directory at [root]. *)
Definition dir_entry (start_path root : string) : string :=
  if 0 <? level_of start_path root
  then drop_last 4 (indent_of start_path root) ++ branch
         ++ PyPath.basename root ++ "/"
  else PyPath.basename root ++ "/".

(** The line of [output] for a file of the directory at [root]. *)
Definition file_entry (start_path root : string) (f : file) : string :=
  indent_of start_path root ++ branch ++ f_name f.

(** The loop body lists the file: one more line in [output], which is
    its entry, and a block of lines more in [file_contents]. *)
Definition emitted (cwd start_path root : string) (st : state) (f : file)
    : Prop :=
  let st' :=
    file_step cwd start_path root (indent_of start_path root) st f in
  output st' = (output st ++ [file_entry start_path root f])%list /\
  exists b, b <> [] /\ file_contents st' = (file_contents st ++ b)%list.

(** The lines of [file_contents] for a file of the directory at [root]. *)
Definition block (cwd start_path root : string) (f : file) : list string :=
  try_except (try_read cwd start_path root f) (read_error (f_name f)).

(** The files of a directory that are listed, in the order of the loop. *)
Definition listed_files (files : list file) : list file :=
  filter eligible (sorted files).

(** The directories visited below and including [d], reached as [top],
    each with its path and its files as [os.walk] hands them over. *)
Fixpoint visits (start_path : string) (max_depth : Z)
    (top : string) (d : dir) : list (string * list file) :=
  match d with
  | Dir _ listed files subs =>
      if listed then
        if too_deep max_depth (level_of start_path top) then []
        else
          (top, files) ::
          flat_map
            (fun sub =>
               if kept_dir (d_name sub)
               then visits start_path max_depth
                      (PyPath.join top (d_name sub)) sub
               else [])
            subs
      else []
  end.

Definition visit_lines (start_path : string) (v : string * list file)
    : list string :=
  let '(root, files) := v in
  dir_entry start_path root
    :: map (file_entry start_path root) (listed_files files).

Definition visit_blocks (cwd start_path : string) (v : string * list file)
    : list string :=
  let '(root, files) := v in
  flat_map (block cwd start_path root) (listed_files files).

(** The Structure Lines: [output] without its first element. *)
Definition structure_lines (fs : dir) (start_path : string) (max_depth : Z)
    : list string :=
  flat_map (visit_lines start_path) (visits start_path max_depth start_path fs).

(** The files with a line in the Structure Lines, each with the path of
    its directory, in the order of their lines. *)
Definition file_entries (fs : dir) (start_path : string) (max_depth : Z)
    : list (string * file) :=
  flat_map (fun v : string * list file =>
              map (pair (fst v)) (listed_files (snd v)))
           (visits start_path max_depth start_path fs).

(** The directories with a line in the Structure Lines. *)
Definition dir_entries (fs : dir) (start_path : string) (max_depth : Z)
    : list string :=
  map fst (visits start_path max_depth start_path fs).

(** The Content Blocks, one for each file entry. *)
Definition content_blocks (cwd : string) (fs : dir) (start_path : string)
    (max_depth : Z) : list (list string) :=
  map (fun e : string * file => block cwd start_path (fst e) (snd e))
      (file_entries fs start_path max_depth).

(** A first line of a block that is a ["File:"] header. *)
Definition file_header (b : list string) : bool :=
  match b with
  | [] => false
  | h :: _ => startswith h (nl ++ "File: ")
  end.

(** The try block of a file entry ran to its end. *)
Definition read_ok (cwd start_path : string) (e : string * file) : bool :=
  match try_read cwd start_path (fst e) (snd e) with
  | Ok _ => true
  | Raised _ => false
  end.

(** Appending to both lists. *)
Definition extend (st : state) (lines blocks : list string) : state :=
  State (output st ++ lines) (file_contents st ++ blocks).

End Rendering.

(* ================================================================== *)
(** ** File systems compared *)

Module Variants.
Import PyStr FS CopyCode.


(** The same tree without the files whose name holds an ignored
    substring. *)
Fixpoint without_ignored_files (d : dir) : dir :=
  match d with
  | Dir n listed files subs =>
      Dir n listed
        (filter (fun f => negb (ignored_file (f_name f))) files)
        (map without_ignored_files subs)
  end.

(** The same tree without the child directories, at any depth, whose name
    is in [IGNORED_DIRS] or begins with a dot. *)
Fixpoint without_ignored_dirs (d : dir) : dir :=
  match d with
  | Dir n listed files subs =>
      Dir n listed files
        (flat_map
           (fun sub =>
              if kept_dir (d_name sub) then [without_ignored_dirs sub] else [])
           subs)
  end.

(** Two listings of the files of one directory: the same list, or the
    same files, whose names differ from one another, in another order. *)
Definition same_listing (files files' : list file) : Prop :=
  files = files' \/
  (Permutation files files' /\ NoDup (map f_name files)).

(** Two trees that are one state of the file system: the same
    directories in the same order, and in each of them the same files in
    whatever order [os.scandir] gives them. *)
Fixpoint same_state (d d' : dir) : Prop :=
  match d, d' with
  | Dir n listed files subs, Dir n' listed' files' subs' =>
      n = n' /\ listed = listed' /\ same_listing files files' /\
      (fix all2 (l l' : list dir) : Prop :=
         match l, l' with
         | [], [] => True
         | x :: r, x' :: r' => same_state x x' /\ all2 r r'
         | _, _ => False
         end) subs subs'
  end.

(** The path [os.walk] gives to the directory reached from [top] by going
    down through [names]. *)
Fixpoint descend (top : string) (names : list string) : string :=
  match names with
  | [] => top
  | n :: rest => descend (PyPath.join top n) rest
  end.

(** The extension of a file name as the specification words it: from
    the last dot of the name on, or nothing if the name has no dot. *)
Definition spec_extension (name : string) : string :=
  let i := rfind name "." in
  if i <? 0 then "" else drop (Z.to_nat i) name.

End Variants.

(* ================================================================== *)
(** ** The recursion limit

    [os.walk] (CPython 3.11) is a generator that calls itself for every
    sub-directory it descends into: a directory [n] levels below the start
    directory is walked [n] frames deeper than the start directory, and the
    interpreter raises [RecursionError] where that reaches its limit.  The
    error is raised inside [os.walk], outside every [try] block of the
    builder, and so reaches the caller of the builder.  [FS.walk], [run]
    and [get_project_structure] above give the lists and the text of a call
    that returns; the definitions of this module say whether it does. *)

Module Limits.
Import PyStr FS CopyCode.

(** [for root, dirs, files in os.walk(top): body] in an interpreter whose
    recursion limit lets [os.walk] descend [frames] levels below [top]:
    in a directory [frames] levels down, going on to a name left in
    [dirs] raises [overflow], the [RecursionError] of the interpreter. *)
Fixpoint walk {S : Type} (frames : nat) (overflow : exn)
    (body : string -> list string -> list file -> S -> list string * S)
    (top : string) (d : dir) (st : S) {struct d} : result S :=
  match d with
  | Dir _ listed files subs =>
      if listed then
        let '(dirs, st1) := body top (map d_name subs) files st in
        if existsb (fun sub => mem (d_name sub) dirs) subs then
          match frames with
          | O => Raised overflow
          | S deeper =>
              fold_left
                (fun acc sub =>
                   if mem (d_name sub) dirs
                   then st2 <- acc ;;
                        walk deeper overflow body
                          (PyPath.join top (d_name sub)) sub st2
                   else acc)
                subs (Ok st1)
          end
        else Ok st1
      else Ok st
  end.

(** The two lists when the loop is over, or the exception that ended it. *)
Definition run (frames : nat) (overflow : exn) (cwd : string) (fs : dir)
    (start_path : string) (max_depth : Z) : result state :=
  walk frames overflow (dir_step cwd start_path max_depth) start_path fs initial.

(** [get_project_structure(start_path, max_depth)]: the text returned, or
    the exception raised to the caller. *)
Definition get_project_structure (frames : nat) (overflow : exn)
    (cwd : string) (fs : dir) (start_path : string) (max_depth : Z)
    : result string :=
  st <- run frames overflow cwd fs start_path max_depth ;;
  Ok (join nl (output st ++ file_contents st)%list).



End Limits.

(* ================================================================== *)
(** ** Sample file systems *)

Module Samples.
Import FS.

Definition cwd : string := "/home/dev".

(** A small file that reads well. *)
Definition text_file (name content : string) : file :=
  File name (Ok (PyStr.len content)) (Ok content).


(** A file of [size] bytes, each the letter [x]. *)
Definition sized_file (name : string) (size : Z) : file :=
  File name (Ok size) (Ok (PyStr.repeat "x" (Z.to_nat size))).

(** [proj/] with [README.md], [src/index.ts] and [node_modules/x.js]. *)
Definition project : dir :=
  Dir "proj" true
    [ text_file "README.md" "# proj" ]
    [ Dir "src" true [ text_file "index.ts" "export {};" ] [];
      Dir "node_modules" true [ text_file "x.js" "x" ] [] ].


(** [proj/] with a dot-file, a test file and a manifest. *)
Definition dotted_project : dir :=
  Dir "proj" true
    [ text_file ".babelrc" "{}"; text_file "foo.test.js" "test();";
      text_file "package.json" "{}" ]
    [].

(** Two directories, each with a large [data.json] and a small [a.py]. *)
Definition twin_project : dir :=
  Dir "proj" true []
    [ Dir "one" true [ sized_file "data.json" 204800; text_file "a.py" "1" ] [];
      Dir "two" true [ sized_file "data.json" 204800; text_file "a.py" "2" ] [] ].

(** One state of a project, as two listings could give it. *)
Definition shuffled_project : dir :=
  Dir "proj" true
    [ text_file "b.py" "b"; text_file "a.py" "a" ]
    [ Dir "src" true [ text_file "z.ts" "z"; text_file "index.ts" "i" ] [] ].

Definition ordered_project : dir :=
  Dir "proj" true
    [ text_file "a.py" "a"; text_file "b.py" "b" ]
    [ Dir "src" true [ text_file "index.ts" "i"; text_file "z.ts" "z" ] [] ].


End Samples.

(* ================================================================== *)
(** ** Depth by a counter, names of entries, sub-sequences *)

Module Depth.
Import PyStr FS CopyCode.

(** A name as [os.scandir] gives it: not empty, without a separator, and
    neither of the two special entries. *)
Definition entry_name (n : string) : Prop :=
  n <> "" /\ contains PyPath.sep n = false /\ n <> "." /\ n <> "..".

(** A tree in which every sub-directory, at any depth, has such a name. *)
Fixpoint named_tree (d : dir) : Prop :=
  match d with
  | Dir _ _ _ subs =>
      (fix all (l : list dir) : Prop :=
         match l with
         | [] => True
         | s :: r => entry_name (d_name s) /\ named_tree s /\ all r
         end) subs
  end.

(** The walk with a counter instead of a level read off the path: the
    listed directories reached through kept names, no more than [budget]
    steps down when there is a budget. *)
Fixpoint visits_within (budget : option nat) (top : string) (d : dir)
    : list (string * list file) :=
  match d with
  | Dir _ listed files subs =>
      if listed then
        (top, files) ::
        match budget with
        | Some O => []
        | Some (S n) =>
            flat_map
              (fun sub =>
                 if kept_dir (d_name sub)
                 then visits_within (Some n) (PyPath.join top (d_name sub)) sub
                 else [])
              subs
        | None =>
            flat_map
              (fun sub =>
                 if kept_dir (d_name sub)
                 then visits_within None (PyPath.join top (d_name sub)) sub
                 else [])
              subs
        end
      else []
  end.

(** [l1] is [l2] with some elements left out. *)
Inductive subseq {A : Type} : list A -> list A -> Prop :=
| subseq_nil : subseq [] []
| subseq_skip (x : A) (l1 l2 : list A) : subseq l1 l2 -> subseq l1 (x :: l2)
| subseq_keep (x : A) (l1 l2 : list A) : subseq l1 l2 -> subseq (x :: l1) (x :: l2).

End Depth.

(* ================================================================== *)
(** ** Paths taken apart *)

Module Paths.
Import PyStr PyPath.

(** The components that [normpath] keeps of a text, with [k] slashes at
    its head. *)
Definition comps (k : nat) (s : string) : list string :=
  fold_left (normpath_step k) (split "/" s) [].

(** What [abspath] hands to [normpath]. *)
Definition anchored (cwd x : string) : string :=
  if startswith x sep then x else join cwd x.

(** What [join] puts between [a] and a relative path. *)
Definition glue (a : string) : string :=
  if String.eqb a "" || endswith a sep then a else a ++ sep.

(** How many times a character occurs in a text. *)
Fixpoint occurrences (c : ascii) (s : string) : nat :=
  match s with
  | "" => O
  | String d s' => ((if Ascii.eqb d c then 1 else 0) + occurrences c s')%nat
  end.

(** A character that is no digit. *)
Definition no_digit (c : ascii) : Prop :=
  (N_of_ascii c < 48 \/ 57 < N_of_ascii c)%N.

End Paths.

(* ================================================================== *)
(** ** The script: [if __name__ == "__main__"] *)

Module Script.
Import PyStr FS CopyCode.

(** [s[:n]] for [0 <= n]. *)
Fixpoint take (n : nat) (s : string) : string :=
  match n, s with
  | O, _ => ""
  | S _, "" => ""
  | S k, String c s' => String c (take k s')
  end.

(** Dropping the separators at the head of a text read from its end. *)
Fixpoint drop_seps (rev_chars : list ascii) : list ascii :=
  match rev_chars with
  | [] => []
  | c :: rest => if Ascii.eqb c "/" then drop_seps rest else rev_chars
  end.

(** [s.rstrip('/')]. *)
Definition rstrip_sep (s : string) : string :=
  string_of_list_ascii (rev (drop_seps (rev (list_ascii_of_string s)))).

(** [os.path.dirname(p)]. *)
Definition dirname (p : string) : string :=
  let i := rfind p PyPath.sep + 1 in
  let head := take (Z.to_nat i) p in
  if negb (String.eqb head "")
     && negb (String.eqb head (repeat PyPath.sep (String.length head)))
  then rstrip_sep head
  else head.

(** A [datetime]. *)
Record datetime : Type := Datetime {
  year : Z; month : Z; day : Z; hour : Z; minute : Z; second : Z
}.

(** The decimal digit [d], for [0 <= d <= 9]. *)
Definition digit (d : Z) : ascii := ascii_of_N (Z.to_N (48 + d)).

(** Two digits, with a leading zero if need be ([%m], [%d], [%H], [%M],
    [%S]). *)
Definition pad2 (n : Z) : string :=
  String (digit (n / 10)) (String (digit (n mod 10)) "").

(** Four digits, with leading zeros if need be ([%Y], as documented; the
    C library pads years from 1000 on in any case). *)
Definition pad4 (n : Z) : string :=
  String (digit (n / 1000)) (String (digit (n / 100 mod 10)) (pad2 (n mod 100))).

(** [t.strftime("%Y%m%d_%H%M%S")]. *)
Definition strftime (t : datetime) : string :=
  pad4 (year t) ++ pad2 (month t) ++ pad2 (day t) ++ "_"
    ++ pad2 (hour t) ++ pad2 (minute t) ++ pad2 (second t).

(** What a [datetime] of a year of four digits holds; for an earlier year
    the digits that [%Y] gives depend on the platform. *)
Definition valid_datetime (t : datetime) : Prop :=
  1000 <= year t <= 9999 /\ 1 <= month t <= 12 /\ 1 <= day t <= 31 /\
  0 <= hour t <= 23 /\ 0 <= minute t <= 59 /\ 0 <= second t <= 59.

(** What the script finds around it: the working directory, its own path
    ([__file__]), whether the directory asked for exists and the tree it
    names, the time, and how copying to the clipboard and opening the file
    for writing turn out. *)
Record env : Type := Env {
  cwd : string;
  script_file : string;
  dir_exists : bool;
  tree : dir;
  now : datetime;
  copy_outcome : result unit;
  open_outcome : result unit
}.

(** How [f.write(result)] and the closing of the file turn out: the whole
    text reaches the file, or an exception is raised when [reached] bytes
    of it have. *)
Inductive written : Type :=
| Whole
| Partial (e : exn) (reached : nat).

(** What the interpreter and the disk allow: how many levels [os.walk] can
    descend, the [RecursionError] raised beyond, and what becomes of the
    text written. *)
Record runtime : Type := Runtime {
  frames : nat;
  recursion_error : exn;
  write_outcome : written
}.

(** What the script leaves behind: the lines printed, the clipboard, and
    the files on the disk, each known by one path, with its content, the
    binding made last coming first. *)
Record world : Type := World {
  stdout : list string;
  clipboard : option string;
  files : list (string * string)
}.

(** How the process ends: with an exit status, or on an exception nobody
    catches. *)
Inductive ending : Type :=
| Exited (status : Z)
| Crashed (e : exn).

Definition print (w : world) (line : string) : world :=
  World (stdout w ++ [line])%list (clipboard w) (files w).

(** The file at [path] now holds [content]. *)
Definition write_file (w : world) (path content : string) : world :=
  World (stdout w) (clipboard w) ((path, content) :: files w).

(** The content of the file at [path], if there is one. *)
Definition read_file (w : world) (path : string) : option string :=
  match find (fun entry => String.eqb (fst entry) path) (files w) with
  | Some entry => Some (snd entry)
  | None => None
  end.

(** [f"project_structure_{timestamp}.txt"]. *)
Definition output_file (t : datetime) : string :=
  "project_structure_" ++ strftime t ++ ".txt".

(** [os.path.join(script_dir, output_file)]. *)
Definition output_path (e : env) : string :=
  let script_dir := dirname (PyPath.abspath (cwd e) (script_file e)) in
  PyPath.join script_dir (output_file (now e)).

(** [args.depth]: the integer after [--depth], 4 without the option. *)
Definition args_depth (given : option Z) : Z :=
  match given with
  | Some d => d
  | None => 4
  end.

(** [get_project_structure(args.directory, args.depth)] as the script
    calls it. *)
Definition build (e : env) (rt : runtime) (directory : string)
    (given_depth : option Z) : result string :=
  Limits.get_project_structure (frames rt) (recursion_error rt)
    (cwd e) (tree e) directory (args_depth given_depth).

(** The script, once [parse_args] has given [directory] and the depth.
    [open(output_path, 'w')] creates the file or empties it; what the file
    holds when the [with] block is left depends on how the writing went. *)
Definition main (e : env) (rt : runtime) (directory : string)
    (given_depth : option Z) (w : world) : world * ending :=
  if negb (dir_exists e) then
    (print w ("Directory not found: " ++ directory), Exited 1)
  else
    match build e rt directory given_depth with
    | Raised x => (w, Crashed x)
    | Ok result =>
        match copy_outcome e with
        | Raised x => (w, Crashed x)
        | Ok _ =>
            let w := World (stdout w) (Some result) (files w) in
            match open_outcome e with
            | Raised x => (w, Crashed x)
            | Ok _ =>
                let w := write_file w (output_path e) "" in
                match write_outcome rt with
                | Partial x reached =>
                    (write_file w (output_path e) (take reached result),
                     Crashed x)
                | Whole =>
                    let w := write_file w (output_path e) result in
                    let w := print w "Project structure and contents have been:" in
                    let w := print w "1. Copied to clipboard" in
                    let w := print w ("2. Saved to file: " ++ output_path e) in
                    (w, Exited 0)
                end
            end
        end
    end.

End Script.

(* ================================================================== *)
(** ** The lists of a run are the rendering of its visits *)

Module Facts.
Import PyStr FS CopyCode Rendering.

(** Induction on a directory, with the property at hand for every
    sub-directory. *)
Lemma dir_ind (P : dir -> Prop)
    (HDir : forall n b files subs, Forall P subs -> P (Dir n b files subs)) :
  forall d, P d.
Proof.
  fix IH 1.
  intros [n b files subs]. apply HDir.
  induction subs as [|s subs IHsubs]; constructor.
  - apply IH.
  - exact IHsubs.
Qed.

Lemma mem_In (x : string) (l : list string) : mem x l = true <-> In x l.
Proof.
  unfold mem. rewrite existsb_exists. split.
  - intros [y [Hy Heq]]. apply String.eqb_eq in Heq. now subst.
  - intros H. exists x. split; [exact H | apply String.eqb_refl].
Qed.

Lemma mem_filter (p : string -> bool) (x : string) (l : list string) :
  mem x (filter p l) = p x && mem x l.
Proof.
  induction l as [|y l IH]; simpl.
  - now rewrite andb_false_r.
  - destruct (p y) eqn:Hp; simpl; rewrite IH.
    + destruct (String.eqb_spec x y) as [->|Hne]; simpl.
      * now rewrite Hp.
      * reflexivity.
    + destruct (String.eqb_spec x y) as [->|Hne]; simpl.
      * now rewrite Hp.
      * reflexivity.
Qed.

Lemma extend_nil (st : state) : extend st [] [] = st.
Proof. destruct st. unfold extend. simpl. now rewrite !app_nil_r. Qed.

Lemma extend_extend (st : state) (l1 b1 l2 b2 : list string) :
  extend (extend st l1 b1) l2 b2 = extend st (l1 ++ l2) (b1 ++ b2).
Proof. unfold extend. simpl. now rewrite !app_assoc. Qed.

Section Run.
Variables (cwd start_path : string) (max_depth : Z).

Lemma file_step_spec (root : string) (st : state) (f : file) :
  file_step cwd start_path root (indent_of start_path root) st f =
  if eligible f
  then extend st [file_entry start_path root f] (block cwd start_path root f)
  else st.
Proof.
  unfold file_step, eligible.
  destruct (ignored_file (f_name f)); simpl; [reflexivity|].
  destruct (included_file (f_name f)); reflexivity.
Qed.

Lemma files_loop_spec (root : string) (files : list file) (st : state) :
  fold_left (file_step cwd start_path root (indent_of start_path root)) files st =
  extend st (map (file_entry start_path root) (filter eligible files))
            (flat_map (block cwd start_path root) (filter eligible files)).
Proof.
  revert st. induction files as [|f files IH]; intros st; simpl.
  - now rewrite extend_nil.
  - rewrite IH, file_step_spec.
    destruct (eligible f); simpl; [|reflexivity].
    now rewrite extend_extend.
Qed.

Lemma dir_step_spec (root : string) (dirs : list string)
    (files : list file) (st : state) :
  dir_step cwd start_path max_depth root dirs files st =
  if too_deep max_depth (level_of start_path root) then ([], st)
  else (filter kept_dir dirs,
        extend st (visit_lines start_path (root, files))
                  (visit_blocks cwd start_path (root, files))).
Proof.
  unfold dir_step.
  destruct (too_deep max_depth (level_of start_path root)); [reflexivity|].
  f_equal. fold (indent_of start_path root).
  rewrite files_loop_spec.
  unfold visit_lines, visit_blocks, dir_entry, listed_files, extend, output_append.
  destruct (0 <? level_of start_path root);
    cbn [output file_contents]; now rewrite <- app_assoc.
Qed.

Lemma walk_spec (d : dir) :
  forall (top : string) (st : state),
  walk (dir_step cwd start_path max_depth) top d st =
  extend st
    (flat_map (visit_lines start_path) (visits start_path max_depth top d))
    (flat_map (visit_blocks cwd start_path) (visits start_path max_depth top d)).
Proof.
  induction d as [n listed files subs IH] using dir_ind.
  intros top st. simpl.
  destruct listed; [|now rewrite extend_nil].
  rewrite dir_step_spec.
  destruct (too_deep max_depth (level_of start_path top)).
  - (* dirs.clear(): no name is left in [dirs] *)
    simpl. rewrite extend_nil.
    clear IH. induction subs as [|s subs IHs]; simpl; [reflexivity|exact IHs].
  - cbn [flat_map]. rewrite <- extend_extend.
    generalize (extend st (visit_lines start_path (top, files))
                  (visit_blocks cwd start_path (top, files))) as st1.
    assert (Hin : forall s, In s subs -> In (d_name s) (map d_name subs))
      by (intros s Hs; now apply in_map).
    revert IH Hin. generalize (map d_name subs) as names.
    intros names IH. induction IH as [|s subs' Hs _ IHsubs]; intros Hin st1.
    + simpl. now rewrite extend_nil.
    + cbn [fold_left flat_map].
      rewrite mem_filter.
      assert (Hm : mem (d_name s) names = true)
        by (apply mem_In, Hin; now left).
      rewrite Hm, andb_true_r.
      rewrite IHsubs by (intros s' Hs'; apply Hin; now right).
      destruct (kept_dir (d_name s)).
      * rewrite Hs, extend_extend, !flat_map_app. reflexivity.
      * reflexivity.
Qed.

(** The two lists at the end of the loop. *)
Theorem run_spec (fs : dir) :
  run cwd fs start_path max_depth =
  State ("Directory Structure:" :: structure_lines fs start_path max_depth)
        ((nl ++ "File Contents:" ++ nl)
           :: concat (content_blocks cwd fs start_path max_depth)).
Proof.
  unfold run. rewrite walk_spec. unfold extend, initial. simpl.
  f_equal. f_equal.
  unfold content_blocks, file_entries.
  generalize (visits start_path max_depth start_path fs) as V.
  induction V as [|[root files] V IH]; simpl; [reflexivity|].
  rewrite IH, map_app, concat_app. f_equal.
  rewrite map_map. simpl. now rewrite flat_map_concat_map.
Qed.

End Run.
End Facts.

(* ================================================================== *)
(** ** [sorted(files)] *)

Module SortedFacts.
Import PyStr FS.

Lemma ltb_lt (a b : string) : String.ltb a b = true <-> String_as_OT.lt a b.
Proof.
  unfold String.ltb. rewrite <- String_as_OT.cmp_lt. unfold String_as_OT.cmp.
  destruct (String.compare a b); split; congruence.
Qed.

Lemma ltb_trans (a b c : string) :
  String.ltb a b = true -> String.ltb b c = true -> String.ltb a c = true.
Proof.
  rewrite !ltb_lt. apply String_as_OT.lt_trans.
Qed.

Lemma ltb_irrefl (a : string) : String.ltb a a = false.
Proof.
  unfold String.ltb.
  replace (String.compare a a) with Eq; [reflexivity|].
  symmetry. apply String_as_OT.cmp_eq. reflexivity.
Qed.

(** Of two names, one is before the other or they are the same. *)
Lemma ltb_trichotomy (a b : string) :
  String.ltb a b = false -> String.ltb b a = false -> a = b.
Proof.
  unfold String.ltb. rewrite (String.compare_antisym b a).
  destruct (String.compare a b) eqn:E; simpl; try discriminate.
  intros _ _. now apply String.compare_eq_iff.
Qed.

Lemma ltb_le_trans (a b c : string) :
  String.ltb a b = true -> String.ltb c b = false -> String.ltb a c = true.
Proof.
  intros Hab Hcb.
  destruct (String.ltb b c) eqn:Hbc.
  - eapply ltb_trans; eassumption.
  - now rewrite <- (ltb_trichotomy b c Hbc Hcb).
Qed.

Lemma name_le_trans (a b c : file) : name_le a b -> name_le b c -> name_le a c.
Proof.
  unfold name_le. intros Hab Hbc.
  destruct (String.ltb (f_name c) (f_name a)) eqn:Hca; [|reflexivity].
  rewrite (ltb_le_trans _ _ _ Hca Hab) in Hbc. discriminate.
Qed.

Lemma insert_perm (f : file) (l : list file) :
  Permutation (f :: l) (insert_by_name f l).
Proof.
  induction l as [|g l IH]; simpl; [reflexivity|].
  destruct (String.ltb (f_name f) (f_name g)); [reflexivity|].
  rewrite perm_swap. now constructor.
Qed.

Lemma insert_sorted (f : file) (l : list file) :
  StronglySorted name_le l -> StronglySorted name_le (insert_by_name f l).
Proof.
  induction 1 as [|g l Hl IH Hg]; simpl.
  - repeat constructor.
  - destruct (String.ltb (f_name f) (f_name g)) eqn:Hfg.
    + constructor; [now constructor|].
      assert (Hle : name_le f g).
      { unfold name_le. destruct (String.ltb (f_name g) (f_name f)) eqn:E; [|reflexivity].
        pose proof (ltb_trans _ _ _ Hfg E) as Hff.
        now rewrite ltb_irrefl in Hff. }
      constructor; [exact Hle|].
      eapply Forall_impl; [|exact Hg].
      intros h Hh. eapply name_le_trans; eassumption.
    + constructor; [exact IH|].
      rewrite <- (insert_perm f l). constructor; [exact Hfg|exact Hg].
  Qed.

Lemma fold_insert_perm (l acc : list file) :
  Permutation (l ++ acc) (fold_left (fun a f => insert_by_name f a) l acc).
Proof.
  revert acc. induction l as [|f l IH]; intros acc; simpl; [reflexivity|].
  rewrite <- IH, <- insert_perm. now rewrite Permutation_middle.
Qed.

Lemma fold_insert_sorted (l acc : list file) :
  StronglySorted name_le acc ->
  StronglySorted name_le (fold_left (fun a f => insert_by_name f a) l acc).
Proof.
  revert acc. induction l as [|f l IH]; intros acc Hacc; simpl; [exact Hacc|].
  apply IH, insert_sorted, Hacc.
Qed.

Lemma sorted_perm (l : list file) : Permutation l (sorted l).
Proof.
  unfold sorted. rewrite <- fold_insert_perm. now rewrite app_nil_r.
Qed.

Lemma sorted_sorted (l : list file) : StronglySorted name_le (sorted l).
Proof. apply fold_insert_sorted. constructor. Qed.

(** A list in the order of the names and free of repeated names is the
    only such arrangement of its elements. *)
Lemma sorted_unique (l1 : list file) :
  forall l2,
  StronglySorted name_le l1 -> StronglySorted name_le l2 ->
  NoDup (map f_name l1) -> Permutation l1 l2 -> l1 = l2.
Proof.
  induction l1 as [|a l1 IH]; intros l2 H1 H2 Hnd Hp.
  - now apply Permutation_nil in Hp.
  - destruct l2 as [|b l2].
    { symmetry in Hp. now apply Permutation_nil in Hp. }
    inversion H1 as [|? ? H1' Ha]; subst.
    inversion H2 as [|? ? H2' Hb]; subst.
    inversion Hnd as [|? ? Hna Hnd']; subst.
    assert (Hab : a = b).
    { assert (Hin : In a (b :: l2)) by (rewrite <- Hp; now left).
      destruct Hin as [->|Hin]; [reflexivity|].
      assert (Hin' : In b (a :: l1)) by (rewrite Hp; now left).
      destruct Hin' as [->|Hin']; [reflexivity|].
      exfalso. apply Hna.
      rewrite Forall_forall in Ha, Hb.
      rewrite (ltb_trichotomy (f_name a) (f_name b) (Hb _ Hin) (Ha _ Hin')).
      now apply in_map. }
    subst b. f_equal.
    apply IH; try assumption.
    eapply Permutation_cons_inv; eassumption.
Qed.

(** The order in which a directory lists its files does not show. *)
Lemma sorted_of_perm (l l' : list file) :
  NoDup (map f_name l) -> Permutation l l' -> sorted l = sorted l'.
Proof.
  intros Hnd Hp.
  apply sorted_unique; try apply sorted_sorted.
  - rewrite <- (Permutation_map f_name (sorted_perm l)). exact Hnd.
  - now rewrite <- (sorted_perm l), <- (sorted_perm l').
Qed.

(** Inserting below everything. *)
Lemma insert_below (f : file) (l : list file) :
  Forall (fun h => String.ltb (f_name f) (f_name h) = true) l ->
  insert_by_name f l = f :: l.
Proof.
  destruct 1 as [|h l Hh _]; simpl; [reflexivity|]. now rewrite Hh.
Qed.

Lemma insert_filter (p : file -> bool) (f : file) (l : list file) :
  StronglySorted name_le l ->
  filter p (insert_by_name f l) =
  if p f then insert_by_name f (filter p l) else filter p l.
Proof.
  induction 1 as [|g l Hl IH Hg].
  - simpl. destruct (p f); reflexivity.
  - cbn [insert_by_name].
    destruct (String.ltb (f_name f) (f_name g)) eqn:Hfg.
    + change (filter p (f :: g :: l))
        with (if p f then f :: filter p (g :: l) else filter p (g :: l)).
      destruct (p f); [|reflexivity].
      rewrite insert_below; [reflexivity|].
      apply Forall_forall. intros h Hh. apply filter_In in Hh.
      destruct Hh as [[->|Hh] _]; [exact Hfg|].
      rewrite Forall_forall in Hg.
      eapply ltb_le_trans; [exact Hfg|]. now apply Hg.
    + cbn [filter]. rewrite IH.
      destruct (p g), (p f); try reflexivity.
      simpl. now rewrite Hfg.
Qed.

(** Sorting and leaving files out can be done in either order. *)
Lemma filter_sorted (p : file -> bool) (l : list file) :
  filter p (sorted l) = sorted (filter p l).
Proof.
  unfold sorted.
  assert (H : forall acc, StronglySorted name_le acc ->
    filter p (fold_left (fun a f => insert_by_name f a) l acc) =
    fold_left (fun a f => insert_by_name f a) (filter p l) (filter p acc)).
  { induction l as [|f l IH]; intros acc Hacc; simpl; [reflexivity|].
    rewrite IH by now apply insert_sorted.
    rewrite insert_filter by exact Hacc.
    destruct (p f); reflexivity. }
  apply (H []). constructor.
Qed.



End SortedFacts.

(* ================================================================== *)
(** ** Visits of related file systems *)

Module VisitFacts.
Import PyStr FS CopyCode Rendering Variants Facts SortedFacts.

Section Visits.
Variables (start_path : string) (max_depth : Z).

(** A change of the files of every directory that leaves the tree of
    directories alone changes the files of every visit alike. *)
Lemma visits_map (T : dir -> dir) (h : list file -> list file)
    (HT : forall n b files subs,
            T (Dir n b files subs) = Dir n b (h files) (map T subs)) :
  forall d top,
  visits start_path max_depth top (T d) =
  map (fun v => (fst v, h (snd v))) (visits start_path max_depth top d).
Proof.
  assert (Hname : forall s, d_name (T s) = d_name s).
  { intros [n b files subs]. now rewrite HT. }
  induction d as [n listed files subs IH] using dir_ind.
  intros top. rewrite HT. simpl.
  destruct listed; [|reflexivity].
  destruct (too_deep max_depth (level_of start_path top)); [reflexivity|].
  simpl. f_equal.
  induction IH as [|s subs Hs _ IHsubs]; simpl; [reflexivity|].
  rewrite map_app, <- IHsubs, Hname.
  destruct (kept_dir (d_name s)); [now rewrite Hs|reflexivity].
Qed.


Lemma visits_without_ignored_files (d : dir) (top : string) :
  visits start_path max_depth top (without_ignored_files d) =
  map (fun v => (fst v,
                 filter (fun f => negb (ignored_file (f_name f))) (snd v)))
      (visits start_path max_depth top d).
Proof. apply visits_map. reflexivity. Qed.

(** The walk never enters a directory that [without_ignored_dirs]
    removes. *)
Lemma visits_without_ignored_dirs (d : dir) :
  forall top,
  visits start_path max_depth top (without_ignored_dirs d) =
  visits start_path max_depth top d.
Proof.
  assert (Hname : forall s, d_name (without_ignored_dirs s) = d_name s)
    by (now intros [n b files subs]).
  induction d as [n listed files subs IH] using dir_ind.
  intros top. simpl.
  destruct listed; [|reflexivity].
  destruct (too_deep max_depth (level_of start_path top)); [reflexivity|].
  f_equal.
  induction IH as [|s subs Hs _ IHsubs]; simpl; [reflexivity|].
  destruct (kept_dir (d_name s)) eqn:Hk; simpl.
  - now rewrite Hname, Hk, Hs, IHsubs.
  - exact IHsubs.
Qed.

(** One state of the file system, one sequence of visits, up to the
    order in which the files of a directory are listed. *)
Lemma visits_same_state (d : dir) :
  forall d' top, same_state d d' ->
  Forall2 (fun v v' => fst v = fst v' /\ sorted (snd v) = sorted (snd v'))
          (visits start_path max_depth top d)
          (visits start_path max_depth top d').
Proof.
  induction d as [n listed files subs IH] using dir_ind.
  intros [n' listed' files' subs'] top (-> & <- & Hfiles & Hsubs).
  simpl.
  destruct listed; [|constructor].
  destruct (too_deep max_depth (level_of start_path top)); [constructor|].
  constructor.
  { split; [reflexivity|]. cbn [snd].
    destruct Hfiles as [->|[Hp Hnd]]; [reflexivity|now apply sorted_of_perm]. }
  revert subs' Hsubs.
  induction IH as [|s subs Hs _ IHsubs]; intros [|s' subs'] Hsubs;
    try contradiction; simpl; [constructor|].
  destruct Hsubs as [Hss Hsubs].
  assert (Hn : d_name s = d_name s').
  { destruct s, s'. simpl in Hss. now destruct Hss. }
  rewrite <- Hn.
  apply Forall2_app; [|now apply IHsubs].
  destruct (kept_dir (d_name s)); [|constructor].
  now apply Hs.
Qed.

End Visits.

(** A tree is one state with itself. *)
Lemma same_state_refl (d : dir) : same_state d d.
Proof.
  induction d as [n listed files subs IH] using dir_ind.
  simpl. repeat split; [now left|].
  induction IH as [|s subs Hs _ IHsubs]; [exact I|now split].
Qed.

End VisitFacts.

(* ================================================================== *)
(** ** Strings *)

Module StrFacts.
Import PyStr.

Lemma app_empty (s : string) : s ++ "" = s.
Proof. induction s as [|c s IH]; simpl; congruence. Qed.

Lemma app_assoc (s t u : string) : (s ++ t) ++ u = s ++ t ++ u.
Proof. induction s as [|c s IH]; simpl; congruence. Qed.

Lemma app_length (s t : string) :
  String.length (s ++ t) = (String.length s + String.length t)%nat.
Proof. induction s as [|c s IH]; simpl; congruence. Qed.

Lemma prefix_app (s t : string) : String.prefix s (s ++ t) = true.
Proof.
  induction s as [|c s IH]; simpl; [now destruct t|].
  destruct (ascii_dec c c); [exact IH|congruence].
Qed.

Lemma contains_prefix (sub s : string) :
  String.prefix sub s = true -> contains sub s = true.
Proof. intros H. destruct s; cbn [contains]; now rewrite H. Qed.

(** [sub in pre + sub + post]. *)
Lemma contains_app (sub pre post : string) :
  contains sub (pre ++ sub ++ post) = true.
Proof.
  induction pre as [|c pre IH]; simpl.
  - apply contains_prefix, prefix_app.
  - rewrite IH. apply orb_true_r.
Qed.

Lemma replace_scan_skip (old new : string) (s : string) :
  forall skip, (String.length s <= skip)%nat -> replace_scan old new skip s = "".
Proof.
  induction s as [|c s IH]; intros skip Hs; simpl; [reflexivity|].
  destruct skip as [|k]; simpl in Hs; [lia|].
  apply IH. lia.
Qed.

Lemma prefix_refl (s : string) : String.prefix s s = true.
Proof.
  induction s as [|c s IH]; simpl; [reflexivity|].
  destruct (ascii_dec c c); [exact IH|congruence].
Qed.

(** [s.replace(s, '')] is empty. *)
Lemma replace_self (s : string) : replace s s "" = "".
Proof.
  destruct s as [|c s]; [reflexivity|].
  unfold replace. cbn [replace_scan].
  rewrite prefix_refl. cbn [String.length].
  rewrite Nat.sub_succ, Nat.sub_0_r.
  now rewrite replace_scan_skip.
Qed.

End StrFacts.

(* ================================================================== *)
(** ** The block of one file *)

Module BlockFacts.
Import PyStr FS CopyCode Rendering Facts.

Section Block.
Variables (cwd start_path root : string).

(** The notice for a file the code finds too large to read. *)
Lemma block_oversized (f : file) (size : Z) :
  f_getsize f = Ok size -> 102400 < size ->
  block cwd start_path root f =
  [ nl ++ "File: " ++ f_name f ++ " (skipped - too large, "
       ++ format_1f size 1024 ++ "KB)"; "" ]%string.
Proof.
  intros Hsize Hbig. unfold block, try_read. rewrite Hsize. cbn [bind].
  change (100 * 1024) with 102400.
  apply Z.ltb_lt in Hbig. now rewrite Hbig.
Qed.

(** The block of a file read to its end. *)
Lemma block_read (f : file) (size : Z) (content rel_path : string) :
  f_getsize f = Ok size -> size <= 102400 ->
  f_read f = Ok content ->
  PyPath.relpath cwd (PyPath.join root (f_name f)) start_path = Ok rel_path ->
  block cwd start_path root f =
  [ nl ++ "File: " ++ rel_path; dashes; content; dashes; "" ]%string.
Proof.
  intros Hsize Hsmall Hread Hrel. unfold block, try_read.
  rewrite Hsize. cbn [bind]. change (100 * 1024) with 102400.
  apply Z.ltb_ge in Hsmall. rewrite Hsmall, Hread. cbn [bind].
  now rewrite Hrel.
Qed.

(** [os.path.relpath] raises on the empty path alone, and the path of a
    file with a name is not empty. *)
Lemma relpath_defined (f : file) :
  f_name f <> "" ->
  exists rel_path,
    PyPath.relpath cwd (PyPath.join root (f_name f)) start_path = Ok rel_path.
Proof.
  intros Hname.
  assert (Hpath : PyPath.join root (f_name f) <> "").
  { unfold PyPath.join.
    destruct (startswith (f_name f) PyPath.sep); [exact Hname|].
    destruct (String.eqb root "" || endswith root PyPath.sep).
    - destruct root; simpl; [exact Hname|discriminate].
    - destruct root; simpl; discriminate. }
  unfold PyPath.relpath. apply String.eqb_neq in Hpath. rewrite Hpath.
  match goal with |- context [match ?l with [] => _ | _ => _ end] =>
    destruct l end; eexists; reflexivity.
Qed.

(** The block of a file with a name, read to its end. *)
Lemma block_read_named (f : file) (size : Z) (content : string) :
  f_getsize f = Ok size -> size <= 102400 ->
  f_read f = Ok content -> f_name f <> "" ->
  exists rel_path,
    PyPath.relpath cwd (PyPath.join root (f_name f)) start_path = Ok rel_path /\
    block cwd start_path root f =
    [ nl ++ "File: " ++ rel_path; dashes; content; dashes; "" ]%string.
Proof.
  intros Hsize Hsmall Hread Hname.
  destruct (relpath_defined f Hname) as [rel_path Hrel].
  exists rel_path. split; [exact Hrel|]. now apply (block_read f size).
Qed.


Lemma try_read_getsize_raised (f : file) (e : exn) :
  f_getsize f = Raised e -> try_read cwd start_path root f = Raised e.
Proof. intros H. unfold try_read. now rewrite H. Qed.

Lemma try_read_read_raised (f : file) (size : Z) (e : exn) :
  f_getsize f = Ok size -> size <= 102400 -> f_read f = Raised e ->
  try_read cwd start_path root f = Raised e.
Proof.
  intros Hsize Hsmall Hread. unfold try_read. rewrite Hsize. cbn [bind].
  change (100 * 1024) with 102400.
  apply Z.ltb_ge in Hsmall. now rewrite Hsmall, Hread.
Qed.

(** A block is never empty, and its first line is a ["File:"] header
    exactly when the [try] block ran to its end. *)
Lemma block_header (f : file) :
  block cwd start_path root f <> [] /\
  file_header (block cwd start_path root f) =
  read_ok cwd start_path (root, f).
Proof.
  unfold block, read_ok, try_read. cbn [fst snd].
  destruct (f_getsize f) as [size|e]; cbn [bind try_except];
    [|split; [discriminate|reflexivity]].
  destruct (100 * 1024 <? size); cbn [try_except].
  { split; [discriminate|]. unfold file_header, startswith.
    apply (StrFacts.prefix_app (nl ++ "File: ")). }
  destruct (f_read f) as [content|e]; cbn [bind try_except];
    [|split; [discriminate|reflexivity]].
  destruct (PyPath.relpath _ _ _) as [rel|e]; cbn [bind try_except];
    [|split; [discriminate|reflexivity]].
  split; [discriminate|]. unfold file_header, startswith.
  apply (StrFacts.prefix_app (nl ++ "File: ")).
Qed.

End Block.

Lemma included_file_In (name : string) :
  included_file name = true <->
  In (PyPath.suffix name) INCLUDED_EXTENSIONS \/ In name IMPORTANT_FILES.
Proof.
  unfold included_file. now rewrite orb_true_iff, !mem_In.
Qed.

(** Past the test on ignored substrings, the test on the suffix and the
    important names decides alone. *)
Lemma emitted_iff_included (cwd start_path root : string) (st : state)
    (f : file) :
  ignored_file (f_name f) = false ->
  (emitted cwd start_path root st f <-> included_file (f_name f) = true).
Proof.
  intros Hkeep. unfold emitted. rewrite file_step_spec. unfold eligible.
  rewrite Hkeep. cbn [negb andb].
  destruct (included_file (f_name f)); split; intros H; try reflexivity.
  - split; [reflexivity|].
    exists (block cwd start_path root f). split; [|reflexivity].
    apply block_header.
  - exfalso. destruct H as [Hout _].
    apply (f_equal (@List.length string)) in Hout.
    rewrite length_app in Hout. simpl in Hout. lia.
  - discriminate.
Qed.

(** [round_half_even n d] is the integer nearest to [n / d], and an even
    one when two are as near. *)
Lemma round_half_even_spec (n d : Z) :
  0 < d ->
  2 * Z.abs (d * round_half_even n d - n) <= d /\
  (2 * Z.abs (d * round_half_even n d - n) = d ->
   Z.even (round_half_even n d) = true).
Proof.
  intros Hd. unfold round_half_even.
  pose proof (Z.div_mod n d ltac:(lia)) as Hdm.
  pose proof (Z.mod_pos_bound n d Hd) as Hr.
  destruct (2 * (n mod d) <? d) eqn:E1; [apply Z.ltb_lt in E1; lia|].
  apply Z.ltb_ge in E1.
  destruct (d <? 2 * (n mod d)) eqn:E2; [apply Z.ltb_lt in E2; lia|].
  apply Z.ltb_ge in E2.
  destruct (Z.even (n / d)) eqn:E3; [split; [lia|intros _; exact E3]|].
  split; [lia|]. intros _.
  change (n / d + 1) with (Z.succ (n / d)).
  now rewrite Z.even_succ, <- Z.negb_even, E3.
Qed.

Lemma round_half_even_scale (n d c : Z) :
  0 < d -> 0 < c -> round_half_even (n * c) (d * c) = round_half_even n d.
Proof.
  intros Hd Hc. unfold round_half_even.
  rewrite Z.div_mul_cancel_r by lia.
  rewrite Z.mul_mod_distr_r by lia.
  pose proof (Z.mod_pos_bound n d Hd) as Hr.
  assert (H1 : (2 * (n mod d * c) <? d * c) = (2 * (n mod d) <? d)).
  { destruct (Z.ltb_spec (2 * (n mod d)) d);
      [apply Z.ltb_lt|apply Z.ltb_ge]; nia. }
  assert (H2 : (d * c <? 2 * (n mod d * c)) = (d <? 2 * (n mod d))).
  { destruct (Z.ltb_spec d (2 * (n mod d)));
      [apply Z.ltb_lt|apply Z.ltb_ge]; nia. }
  now rewrite H1, H2.
Qed.

Lemma round_half_even_exact (k d : Z) :
  0 < d -> round_half_even (k * d) d = k.
Proof.
  intros Hd. unfold round_half_even.
  rewrite Z.mod_mul, Z.div_mul by lia.
  assert (H : (2 * 0 <? d) = true) by (apply Z.ltb_lt; lia).
  now rewrite H.
Qed.

(** What [format_1f size 1024] prints: the size is rounded to the nearest
    number [ulp * m] of 53 significant bits, and [ulp * m / 1024] to the
    nearest number of tenths, ties going to the even [m] and to the even
    number of tenths. *)
Lemma format_1f_kib (size : Z) :
  0 < size ->
  exists ulp m tenths : Z,
    ulp = Z.max 1 (2 ^ (Z.log2 size - 52)) /\
    2 * Z.abs (ulp * m - size) <= ulp /\
    (2 * Z.abs (ulp * m - size) = ulp -> Z.even m = true) /\
    2 * Z.abs (1024 * tenths - 10 * (ulp * m)) <= 1024 /\
    (2 * Z.abs (1024 * tenths - 10 * (ulp * m)) = 1024 ->
     Z.even tenths = true) /\
    format_1f size 1024 =
      str_int (tenths / 10) ++ "." ++ str_int (tenths mod 10).
Proof.
  intros Hpos.
  destruct (Z.log2_spec size Hpos) as [Hlo Hhi].
  pose proof (Z.log2_nonneg size) as Hla.
  set (la := Z.log2 size) in *.
  unfold format_1f, true_divide.
  assert (Hnz : (size <=? 0) = false) by (apply Z.leb_gt; lia).
  rewrite Hnz. change (Z.log2 1024) with 10. fold la.
  replace (Z.succ la) with (la + 1) in Hhi by lia.
  rewrite Z.pow_add_r in Hhi by lia. change (2 ^ 1) with 2 in Hhi.
  cbv zeta.
  destruct (Z.le_gt_cases 0 (la - 10 - 52)) as [Hbig|Hsmall].
  - (* 2^62 <= size: the quotient is an integer *)
    assert (Hpow : 1024 * 2 ^ (la - 10 - 52) = 2 ^ (la - 52)).
    { replace (la - 52) with (10 + (la - 10 - 52)) by lia.
      rewrite Z.pow_add_r by lia. reflexivity. }
    assert (Hla2 : 2 ^ (la - 52) * 2 ^ 52 = 2 ^ la).
    { rewrite <- Z.pow_add_r by lia. f_equal. lia. }
    assert (E0 : (0 <=? la - 10 - 52) = true) by (apply Z.leb_le; lia).
    rewrite !E0, !Hpow, Hla2.
    assert (Htest : (size <? 2 ^ la) = false) by (apply Z.ltb_ge; lia).
    rewrite Htest, E0, Hpow. cbn [tenths_of_float]. rewrite E0.
    assert (Hu : 0 < 2 ^ (la - 52)) by (apply Z.pow_pos_nonneg; lia).
    destruct (round_half_even_spec size (2 ^ (la - 52)) Hu) as [Hm1 Hm2].
    set (m := round_half_even size (2 ^ (la - 52))) in *.
    exists (2 ^ (la - 52)), m, (10 * m * 2 ^ (la - 10 - 52)).
    assert (Hone : 1 <= 2 ^ (la - 52)) by lia.
    split; [lia|]. split; [exact Hm1|]. split; [exact Hm2|].
    assert (Hexact : 1024 * (10 * m * 2 ^ (la - 10 - 52))
                     - 10 * (2 ^ (la - 52) * m) = 0).
    { rewrite <- Hpow. ring. }
    rewrite Hexact. cbn [Z.abs]. split; [lia|]. split; [lia|reflexivity].
  - (* size < 2^62 *)
    assert (E0 : (0 <=? la - 10 - 52) = false) by (apply Z.leb_gt; lia).
    replace (- (la - 10 - 52)) with (62 - la) by lia.
    replace (- (la - 10 - 52 - 1)) with (62 - la + 1) by lia.
    assert (Hc : 2 ^ la * 2 ^ (62 - la) = 2 ^ 62).
    { rewrite <- Z.pow_add_r by lia. f_equal. lia. }
    assert (Hcpos : 0 < 2 ^ (62 - la)) by (apply Z.pow_pos_nonneg; lia).
    assert (Htest : (size * 2 ^ (62 - la) <? 1024 * 2 ^ 52) = false).
    { apply Z.ltb_ge. change (1024 * 2 ^ 52) with (2 ^ 62). nia. }
    rewrite !E0, Htest, E0. cbn [tenths_of_float]. rewrite E0.
    replace (- (la - 10 - 52)) with (62 - la) by lia.
    destruct (Z.le_gt_cases la 52) as [Hexact|Hround].
    + (* size < 2^53: the float is the size *)
      assert (Hsplit : 2 ^ (62 - la) = 1024 * 2 ^ (52 - la)).
      { replace (62 - la) with (10 + (52 - la)) by lia.
        rewrite Z.pow_add_r by lia. reflexivity. }
      assert (Hdpos : 0 < 2 ^ (52 - la)) by (apply Z.pow_pos_nonneg; lia).
      rewrite Hsplit.
      replace (size * (1024 * 2 ^ (52 - la)))
        with (size * 2 ^ (52 - la) * 1024) by ring.
      rewrite round_half_even_exact by lia.
      replace (10 * (size * 2 ^ (52 - la)))
        with (10 * size * 2 ^ (52 - la)) by ring.
      rewrite round_half_even_scale by lia.
      destruct (round_half_even_spec (10 * size) 1024 ltac:(lia)) as [Ht1 Ht2].
      set (t := round_half_even (10 * size) 1024) in *.
      assert (Hulp : Z.max 1 (2 ^ (la - 52)) = 1).
      { destruct (Z.eq_dec la 52) as [->|Hne]; [reflexivity|].
        rewrite Z.pow_neg_r by lia. reflexivity. }
      exists 1, size, t. rewrite Hulp.
      replace (1 * size - size) with 0 by ring.
      replace (10 * (1 * size)) with (10 * size) by ring.
      cbn [Z.abs]. repeat split; try lia; try assumption.
    + (* 2^53 <= size < 2^62 *)
      assert (Hsplit : 1024 = 2 ^ (la - 52) * 2 ^ (62 - la)).
      { rewrite <- Z.pow_add_r by lia.
        replace (la - 52 + (62 - la)) with 10 by lia. reflexivity. }
      assert (Hu : 0 < 2 ^ (la - 52)) by (apply Z.pow_pos_nonneg; lia).
      set (u := 2 ^ (la - 52)) in *. set (c := 2 ^ (62 - la)) in *.
      replace (round_half_even (size * c) 1024)
        with (round_half_even (size * c) (u * c)) by (now rewrite <- Hsplit).
      rewrite round_half_even_scale by lia.
      destruct (round_half_even_spec size u Hu) as [Hm1 Hm2].
      set (m := round_half_even size u) in *.
      destruct (round_half_even_spec (10 * m) c Hcpos) as [Ht1 Ht2].
      set (t := round_half_even (10 * m) c) in *.
      exists u, m, t.
      assert (Habs : Z.abs (1024 * t - 10 * (u * m))
                     = u * Z.abs (c * t - 10 * m)).
      { rewrite Hsplit.
        replace (u * c * t - 10 * (u * m)) with (u * (c * t - 10 * m)) by ring.
        rewrite Z.abs_mul, (Z.abs_eq u) by lia. reflexivity. }
      rewrite Habs.
      split; [lia|]. split; [exact Hm1|]. split; [exact Hm2|].
      split; [nia|]. split; [|reflexivity].
      intros Htie. apply Ht2. nia.
Qed.

End BlockFacts.

(* ================================================================== *)
(** ** Runs within the recursion limit *)

Module LimitFacts.
Import PyStr FS CopyCode Rendering Variants Facts.

Section Limited.
Variable (overflow : exn).
Variables (cwd start_path : string) (max_depth : Z).











End Limited.


End LimitFacts.

(* ================================================================== *)
(** ** Properties of the builder *)

Import PyStr FS CopyCode Rendering Variants.
Import Facts SortedFacts VisitFacts StrFacts BlockFacts.

(** *** Which files are listed *)

(** C1, as the code has it.  A file whose name holds no ignored substring
    is listed, with an entry in [output] and a block in [file_contents],
    if and only if its suffix as [pathlib] gives it is in
    [INCLUDED_EXTENSIONS] or its name is in [IMPORTANT_FILES]; the suffix of
    a name runs from its last dot on, and is empty when the name has no dot
    or when its last dot is its first or its last character. *)
Theorem listed_iff_suffix_or_important
    (cwd start_path root : string) (st : state) (f : file) :
  ignored_file (f_name f) = false ->
  (emitted cwd start_path root st f <->
   In (PyPath.suffix (f_name f)) INCLUDED_EXTENSIONS \/
   In (f_name f) IMPORTANT_FILES).
Proof.
  intros Hkeep. rewrite <- included_file_In.
  now apply emitted_iff_included.
Qed.

Lemma listed_iff_suffix_or_important_witness :
  emitted Samples.cwd "proj" "proj" initial (Samples.text_file "package.json" "{}") <->
  In (PyPath.suffix "package.json") INCLUDED_EXTENSIONS \/
  In "package.json" IMPORTANT_FILES.
Proof.
  apply (listed_iff_suffix_or_important Samples.cwd "proj" "proj" initial
           (Samples.text_file "package.json" "{}")).
  reflexivity.
Defined.

(** C1, as the specification words it, fails on a dot-file: [.babelrc]
    holds no ignored substring and, from its last dot on, reads [.babelrc],
    which is no included extension, nor is it an important name; the code
    lists it all the same, for [pathlib] gives it the empty suffix. *)
Lemma dotfile_listed_without_extension :
  let f := Samples.text_file ".babelrc" "{}" in
  ignored_file (f_name f) = false /\
  emitted Samples.cwd "proj" "proj" initial f /\
  ~ (In (spec_extension (f_name f)) INCLUDED_EXTENSIONS \/
     In (f_name f) IMPORTANT_FILES).
Proof.
  cbv zeta. split; [reflexivity|]. split.
  - apply emitted_iff_included; reflexivity.
  - vm_compute. intuition discriminate.
Qed.

(** *** Headers and entries *)




(** *** Depth *)

(** C3 at a start path that ends with a separator.  With [proj/] as start
    path, [proj/src] is given level 0, not 1: at [max_depth = 0] the code
    lists [src/] and its file, as if they were at the root, while with
    [proj] as start path it lists the root alone. *)
Lemma trailing_separator_level :
  level_of "proj/" "proj/src" = 0 /\
  output (run Samples.cwd Samples.project "proj/" 0) =
    ["Directory Structure:"; "/"; "src/"; "├── index.ts"] /\
  file_contents (run Samples.cwd Samples.project "proj/" 0) =
    [ nl ++ "File Contents:" ++ nl;
      nl ++ "File: src/index.ts"; dashes; "export {};"; dashes; "" ]%string /\
  dir_entries Samples.project "proj/" 0 = ["proj/"; "proj/src"] /\
  level_of "proj" "proj/src" = 1 /\
  output (run Samples.cwd Samples.project "proj" 0) =
    ["Directory Structure:"; "proj/"].
Proof. vm_compute. repeat split; reflexivity. Qed.

(** With a start path that holds no separator, the level is the depth.
    First, the scan: once the characters of an occurrence have been passed
    over, it goes on as from its start. *)
Lemma replace_scan_skip_app (old new a s : string) :
  replace_scan old new (String.length a) (a ++ s) = replace_scan old new 0 s.
Proof.
  induction a as [|c a IH]; simpl; [|exact IH].
  destruct s; reflexivity.
Qed.

Lemma count_scan_nonneg (sub s : string) :
  forall skip, 0 <= count_scan sub skip s.
Proof.
  induction s as [|c s IH]; intros skip; cbn [count_scan]; [lia|].
  destruct skip; [|apply IH].
  destruct (String.prefix sub (String c s)).
  - specialize (IH (String.length sub - 1)%nat). lia.
  - apply IH.
Qed.

Lemma no_sep_head (c : ascii) (s : string) :
  contains PyPath.sep (String c s) = false ->
  c <> "/"%char /\ contains PyPath.sep s = false.
Proof.
  cbn [contains]. intros H. apply orb_false_iff in H. destruct H as [Hp Hc].
  split; [|exact Hc]. intros ->. simpl in Hp. now destruct s.
Qed.

Lemma no_sep_startswith (s : string) :
  contains PyPath.sep s = false -> startswith s PyPath.sep = false.
Proof.
  intros H. unfold startswith.
  destruct s; cbn [contains] in H; apply orb_false_iff in H; apply H.
Qed.

Lemma no_sep_endswith (s : string) :
  contains PyPath.sep s = false -> endswith s PyPath.sep = false.
Proof.
  induction s as [|c s IH]; intros H; [reflexivity|].
  apply no_sep_head in H. destruct H as [Hc Hs].
  cbn [endswith]. rewrite (IH Hs), orb_false_r.
  apply String.eqb_neq. intros E. injection E as E _. contradiction.
Qed.

(** Below a start path that holds no separator, a child of the root is at
    level 1 at least. *)
Lemma level_of_child (start_path name : string) :
  start_path <> "" -> contains PyPath.sep start_path = false ->
  startswith name PyPath.sep = false ->
  1 <= level_of start_path (PyPath.join start_path name).
Proof.
  intros Hne Hsep Hname. unfold PyPath.join. rewrite Hname.
  rewrite (no_sep_endswith _ Hsep), orb_false_r.
  destruct start_path as [|c s]; [contradiction|]. clear Hne.
  cbn [String.eqb]. unfold level_of, replace, count, PyPath.sep.
  change (String c s ++ "/" ++ name) with (String c (s ++ "/" ++ name)).
  cbn [replace_scan].
  pose proof (prefix_app (String c s) ("/" ++ name)) as Hp0.
  change (String c s ++ "/" ++ name) with (String c (s ++ "/" ++ name)) in Hp0.
  rewrite Hp0. clear Hp0.
  cbn [String.length]. rewrite Nat.sub_succ, Nat.sub_0_r.
  rewrite replace_scan_skip_app.
  apply no_sep_head in Hsep. destruct Hsep as [Hc _].
  change ("/" ++ name) with (String "/" name). cbn [replace_scan].
  assert (Hp : String.prefix (String c s) (String "/" name) = false).
  { simpl. destruct (ascii_dec c "/"); [contradiction|reflexivity]. }
  rewrite Hp. cbn [append].
  generalize (replace_scan (String c s) "" 0 name) as r. intros r.
  assert (Hcount : count_scan "/" 0 (String "/" r) = 1 + count_scan "/" 0 r)
    by (destruct r; reflexivity).
  rewrite Hcount. pose proof (count_scan_nonneg "/" r 0%nat). lia.
Qed.

(** The number of separators in a text, one character at a time. *)
Lemma count_sep_cons (c : ascii) (s : string) :
  count_scan "/" 0 (String c s) =
  (if Ascii.eqb c "/" then 1 else 0) + count_scan "/" 0 s.
Proof.
  assert (Hp : String.prefix "/" (String c s) = Ascii.eqb c "/").
  { change (String.prefix "/" (String c s))
      with (if ascii_dec "/" c then String.prefix "" s else false).
    destruct (ascii_dec "/" c) as [<-|Hne].
    - now destruct s.
    - symmetry. apply Ascii.eqb_neq. congruence. }
  cbn [count_scan String.length Nat.sub]. rewrite Hp.
  destruct (Ascii.eqb c "/"); reflexivity.
Qed.

Lemma count_sep_app (a b : string) :
  count_scan "/" 0 (a ++ b) = count_scan "/" 0 a + count_scan "/" 0 b.
Proof.
  induction a as [|c a IH]; [reflexivity|].
  change (String c a ++ b) with (String c (a ++ b)).
  rewrite !count_sep_cons, IH. lia.
Qed.

Lemma count_sep_none (s : string) :
  contains PyPath.sep s = false -> count_scan "/" 0 s = 0.
Proof.
  induction s as [|c s IH]; intros H; [reflexivity|].
  apply no_sep_head in H. destruct H as [Hc Hs].
  rewrite count_sep_cons, (IH Hs).
  assert (E : Ascii.eqb c "/" = false) by now apply Ascii.eqb_neq.
  now rewrite E.
Qed.

Lemma prefix_split (a s : string) :
  String.prefix a s = true -> exists s', s = a ++ s'.
Proof.
  revert s. induction a as [|c a IH]; intros s H.
  - now exists s.
  - destruct s as [|d s]; [discriminate|]. simpl in H.
    destruct (ascii_dec c d) as [<-|]; [|discriminate].
    destruct (IH s H) as [s' ->]. now exists s'.
Qed.

(** Taking the occurrences of a text that holds no separator out of another
    leaves the separators of the other. *)
Lemma count_replace_no_sep (old : string) :
  old <> "" -> contains PyPath.sep old = false ->
  forall s, count_scan "/" 0 (replace_scan old "" 0 s) = count_scan "/" 0 s.
Proof.
  intros Hne Hsep s.
  remember (String.length s) as n eqn:Hn. revert s Hn.
  induction n as [n IH] using lt_wf_ind. intros s Hn.
  destruct s as [|c s]; [reflexivity|].
  cbn [replace_scan].
  destruct (String.prefix old (String c s)) eqn:Hp.
  - destruct (prefix_split _ _ Hp) as [s' Hs'].
    destruct old as [|o old']; [contradiction|].
    injection Hs' as -> ->.
    cbn [String.length append]. rewrite Nat.sub_succ, Nat.sub_0_r.
    rewrite replace_scan_skip_app.
    change (String o (old' ++ s')) with (String o old' ++ s').
    rewrite count_sep_app, (count_sep_none _ Hsep).
    apply (IH (String.length s')); [|reflexivity].
    subst n. cbn [String.length]. rewrite StrFacts.app_length. lia.
  - rewrite !count_sep_cons. f_equal.
    apply (IH (String.length s)); [|reflexivity].
    subst n. simpl. lia.
Qed.

(** The level of the directory reached from a start path that holds no
    separator through [names], none of them empty or holding a separator,
    is the number of these names. *)
Theorem level_of_descent (start_path : string) (names : list string) :
  start_path <> "" -> contains PyPath.sep start_path = false ->
  Forall (fun n => n <> "" /\ contains PyPath.sep n = false) names ->
  level_of start_path (descend start_path names) = Z.of_nat (List.length names).
Proof.
  intros Hne Hsep Hnames.
  assert (Hpath : forall top,
            top <> "" -> endswith top PyPath.sep = false ->
            exists rest,
              descend top names = top ++ rest /\
              count_scan "/" 0 rest = Z.of_nat (List.length names)).
  { induction Hnames as [|n names [Hn Hns] _ IH]; intros top Htop Hend.
    - exists "". split; [now rewrite StrFacts.app_empty|reflexivity].
    - cbn [descend].
      assert (Hjoin : PyPath.join top n = top ++ "/" ++ n).
      { unfold PyPath.join.
        rewrite (no_sep_startswith _ Hns), Hend, orb_false_r.
        apply String.eqb_neq in Htop. now rewrite Htop. }
      rewrite Hjoin.
      destruct (IH (top ++ "/" ++ n)) as [rest [Hd Hc]].
      + destruct top; [contradiction|discriminate].
      + clear - Hn Hns.
        induction top as [|c top IHt].
        * cbn [append]. change ("/" ++ n) with (String "/" n).
          cbn [endswith]. rewrite (no_sep_endswith _ Hns), orb_false_r.
          apply String.eqb_neq. destruct n; [contradiction|discriminate].
        * change (String c top ++ "/" ++ n) with (String c (top ++ "/" ++ n)).
          cbn [endswith]. rewrite IHt, orb_false_r.
          apply String.eqb_neq. intros E. injection E as _ E.
          destruct top; discriminate.
      + exists ("/" ++ n ++ rest). split.
        * rewrite Hd. now rewrite !StrFacts.app_assoc.
        * change ("/" ++ n ++ rest) with (String "/" (n ++ rest)).
          rewrite count_sep_cons, count_sep_app, (count_sep_none _ Hns), Hc.
          cbn [List.length]. simpl Ascii.eqb. lia. }
  destruct (Hpath start_path Hne (no_sep_endswith _ Hsep)) as [rest [-> Hc]].
  unfold level_of, replace, count, PyPath.sep.
  destruct start_path as [|c s]; [contradiction|].
  change (String c s ++ rest) with (String c (s ++ rest)).
  cbn [replace_scan].
  pose proof (prefix_app (String c s) rest) as Hp.
  change (String c s ++ rest) with (String c (s ++ rest)) in Hp.
  rewrite Hp. cbn [String.length append].
  rewrite Nat.sub_succ, Nat.sub_0_r, replace_scan_skip_app.
  now rewrite count_replace_no_sep.
Qed.

Lemma level_of_start (start_path : string) : level_of start_path start_path = 0.
Proof. unfold level_of. now rewrite replace_self. Qed.

(** With a start path that holds no separator and [max_depth = 0], the
    root is the one directory visited. *)
Lemma depth_zero_visits_root_only
    (start_path : string) (n : string) (files : list file) (subs : list dir) :
  start_path <> "" -> contains PyPath.sep start_path = false ->
  Forall (fun sub => startswith (d_name sub) PyPath.sep = false) subs ->
  visits start_path 0 start_path (Dir n true files subs) = [(start_path, files)].
Proof.
  intros Hne Hsep Hsubs. cbn [visits].
  rewrite level_of_start. cbn [too_deep Z.eqb Z.ltb Z.compare negb andb].
  f_equal.
  induction Hsubs as [|[n' l' f' s'] subs Hsub _ IH]; [reflexivity|].
  cbn [flat_map]. rewrite IH, app_nil_r. cbn [d_name] in *.
  destruct (kept_dir n'); [|reflexivity].
  cbn [visits]. destruct l'; [|reflexivity].
  assert (Hdeep : too_deep 0 (level_of start_path (PyPath.join start_path n')) = true).
  { pose proof (level_of_child start_path n' Hne Hsep Hsub) as Hl.
    unfold too_deep. apply andb_true_iff. split; [reflexivity|].
    apply Z.ltb_lt. lia. }
  now rewrite Hdeep.
Qed.

(** *** Size *)

(** C4.  A listed file whose size is above 102400 bytes gets, whatever
    reading it would give, the notice that it was skipped as too large.  The
    number in the notice is the size in KiB to one decimal place, as floats
    give it: the size is taken to the nearest float [ulp * m], which is the
    size itself below 2^53 bytes, and that float divided by 1024 is printed
    as the nearest number of tenths, the integer part, a point and one
    digit; ties go to the even [m] and to the even number of tenths.  A
    listed file of at most 102400 bytes that reads well gets its content
    between two lines of dashes, under a header with its relative path. *)
Theorem size_limit
    (cwd start_path root : string) (st : state)
    (name : string) (size : Z) (body : result string) :
  let f := File name (Ok size) body in
  eligible f = true ->
  (102400 < size < 2 ^ 63 ->
   exists ulp m tenths : Z,
     ulp = Z.max 1 (2 ^ (Z.log2 size - 52)) /\
     2 * Z.abs (ulp * m - size) <= ulp /\
     (2 * Z.abs (ulp * m - size) = ulp -> Z.even m = true) /\
     (size < 2 ^ 53 -> ulp * m = size) /\
     2 * Z.abs (1024 * tenths - 10 * (ulp * m)) <= 1024 /\
     (2 * Z.abs (1024 * tenths - 10 * (ulp * m)) = 1024 ->
      Z.even tenths = true) /\
     file_step cwd start_path root (indent_of start_path root) st f =
       extend st [file_entry start_path root f]
         [ nl ++ "File: " ++ name ++ " (skipped - too large, "
              ++ str_int (tenths / 10) ++ "." ++ str_int (tenths mod 10)
              ++ "KB)"; "" ]%string) /\
  (size <= 102400 ->
   forall content, body = Ok content -> name <> "" ->
   exists rel_path,
     PyPath.relpath cwd (PyPath.join root name) start_path = Ok rel_path /\
     file_step cwd start_path root (indent_of start_path root) st f =
       extend st [file_entry start_path root f]
         [ nl ++ "File: " ++ rel_path; dashes; content; dashes; "" ]%string).
Proof.
  intros f Hel. rewrite file_step_spec, Hel. split.
  - intros [Hbig Hmax].
    destruct (format_1f_kib size ltac:(lia))
      as [ulp [m [tenths [Hulp [Hm [Hmtie [Ht [Httie Htext]]]]]]]].
    exists ulp, m, tenths.
    split; [exact Hulp|]. split; [exact Hm|]. split; [exact Hmtie|].
    split; [|split; [exact Ht|split; [exact Httie|]]].
    + intros Hexact.
      assert (Hlog : Z.log2 size < 53) by (apply Z.log2_lt_pow2; lia).
      assert (Hone : ulp = 1).
      { rewrite Hulp. destruct (Z.eq_dec (Z.log2 size) 52) as [->|Hne];
          [reflexivity|].
        rewrite Z.pow_neg_r by lia. reflexivity. }
      rewrite Hone in *. lia.
    + rewrite (block_oversized cwd start_path root f size eq_refl Hbig).
      rewrite Htext. cbn [f_name f]. do 3 f_equal.
      now rewrite !StrFacts.app_assoc.
  - intros Hsmall content Hbody Hname.
    destruct (block_read_named cwd start_path root f size content)
      as [rel_path [Hrel Hblock]]; try assumption; try reflexivity.
    exists rel_path. split; [exact Hrel|]. now rewrite Hblock.
Qed.

Lemma size_limit_witness :
  let unread := Raised (Exception "not read") in
  let step f :=
    file_step Samples.cwd "proj" "proj" (indent_of "proj" "proj") initial f in
  let notice text :=
    extend initial ["├── data.json"]
      [ nl ++ "File: data.json (skipped - too large, " ++ text ++ "KB)"; "" ]%string in
  step (File "data.json" (Ok 102401) unread) = notice "100.0" /\
  step (File "data.json" (Ok 103000) unread) = notice "100.6" /\
  step (File "data.json" (Ok 102656) unread) = notice "100.2" /\
  step (File "data.json" (Ok (2 ^ 53 + 51)) unread) = notice "8796093022208.1" /\
  step (Samples.sized_file "data.json" 102400) =
    extend initial ["├── data.json"]
      [ nl ++ "File: data.json"; dashes; repeat "x" (Z.to_nat 102400); dashes;
        "" ]%string.
Proof.
  cbv zeta.
  assert (Hnotice : forall size expected,
            102400 < size < 2 ^ 53 ->
            2 * Z.abs (1024 * expected - 10 * size) <= 1024 ->
            (2 * Z.abs (1024 * expected - 10 * size) = 1024 ->
             Z.even expected = true) ->
            file_step Samples.cwd "proj" "proj" (indent_of "proj" "proj") initial
              (File "data.json" (Ok size) (Raised (Exception "not read"))) =
            extend initial ["├── data.json"]
              [ nl ++ "File: data.json (skipped - too large, "
                   ++ str_int (expected / 10) ++ "."
                   ++ str_int (expected mod 10) ++ "KB)"; "" ]%string).
  { intros size expected Hsize Hnear Htie.
    destruct (size_limit Samples.cwd "proj" "proj" initial "data.json" size
                (Raised (Exception "not read")) eq_refl) as [Hover _].
    destruct (Hover ltac:(lia))
      as [ulp [m [tenths [_ [_ [_ [Hexact [Ht [Httie Hstep]]]]]]]]].
    rewrite (Hexact ltac:(lia)) in Ht, Httie.
    assert (Hsame : tenths = expected).
    { assert (Hclose : tenths = expected \/ tenths = expected + 1
                       \/ tenths = expected - 1) by lia.
      destruct Hclose as [H|[H|H]]; [exact H| |]; exfalso; subst tenths.
      - assert (E1 : Z.even (expected + 1) = true) by (apply Httie; lia).
        assert (E2 : Z.even expected = true) by (apply Htie; lia).
        change (expected + 1) with (Z.succ expected) in E1.
        rewrite Z.even_succ, <- Z.negb_even, E2 in E1. discriminate.
      - assert (E1 : Z.even (expected - 1) = true) by (apply Httie; lia).
        assert (E2 : Z.even expected = true) by (apply Htie; lia).
        change (expected - 1) with (Z.pred expected) in E1.
        rewrite Z.even_pred, <- Z.negb_even, E2 in E1. discriminate. }
    now rewrite <- Hsame. }
  split; [|split; [|split; [|split]]].
  - apply (Hnotice 102401 1000); [lia|lia|lia].
  - apply (Hnotice 103000 1006); [lia|lia|lia].
  - apply (Hnotice 102656 1002); [lia|lia|reflexivity].
  - destruct (size_limit Samples.cwd "proj" "proj" initial "data.json"
                (2 ^ 53 + 51) (Raised (Exception "not read")) eq_refl)
      as [Hover _].
    destruct (Hover ltac:(lia))
      as [ulp [m [tenths [Hulp [Hm [Hmtie [_ [Ht [_ Hstep]]]]]]]]].
    vm_compute in Hulp. subst ulp.
    assert (Hfloat : m = 2 ^ 52 + 26).
    { assert (Hclose : m = 2 ^ 52 + 25 \/ m = 2 ^ 52 + 26) by lia.
      destruct Hclose as [H|H]; [exfalso|exact H]. subst m.
      assert (E : Z.even (2 ^ 52 + 25) = true) by (apply Hmtie; lia).
      discriminate. }
    subst m.
    assert (Htenths : tenths = 87960930222081) by lia.
    subst tenths. exact Hstep.
  - destruct (size_limit Samples.cwd "proj" "proj" initial "data.json" 102400
                (Ok (repeat "x" (Z.to_nat 102400))) eq_refl) as [_ Hread].
    destruct (Hread ltac:(lia) (repeat "x" (Z.to_nat 102400)) eq_refl
                ltac:(discriminate)) as [rel_path [Hrel Hstep]].
    vm_compute in Hrel. injection Hrel as <-. exact Hstep.
Defined.

(** *** Files that cannot be read *)








(** *** Ignored files *)

Lemma ignored_file_substring (ignore pre post : string) :
  In ignore IGNORED_FILES -> ignored_file (pre ++ ignore ++ post) = true.
Proof.
  intros Hin. unfold ignored_file. apply existsb_exists.
  exists ignore. split; [exact Hin|apply contains_app].
Qed.

Lemma listed_files_without_ignored (files : list file) :
  listed_files (filter (fun f => negb (ignored_file (f_name f))) files) =
  listed_files files.
Proof.
  unfold listed_files. rewrite <- filter_sorted.
  induction (sorted files) as [|f l IH]; simpl; [reflexivity|].
  unfold eligible at 2.
  destruct (ignored_file (f_name f)) eqn:Hig; simpl.
  - exact IH.
  - unfold eligible at 1. rewrite Hig. simpl.
    destruct (included_file (f_name f)); now rewrite IH.
Qed.

Lemma run_without_ignored_files (cwd : string) (fs : dir)
    (start_path : string) (max_depth : Z) :
  run cwd (without_ignored_files fs) start_path max_depth =
  run cwd fs start_path max_depth.
Proof.
  unfold run. rewrite !walk_spec, visits_without_ignored_files.
  generalize (visits start_path max_depth start_path fs) as V.
  intros V. f_equal.
  - induction V as [|[root files] V IH]; simpl; [reflexivity|].
    now rewrite IH, listed_files_without_ignored.
  - induction V as [|[root files] V IH]; simpl; [reflexivity|].
    now rewrite IH, listed_files_without_ignored.
Qed.

(** C6.  A file whose name holds an entry of [IGNORED_FILES] anywhere is
    passed over by the loop body, whatever its suffix and its name are
    besides, and the text returned is the one returned for the same tree
    without any such file.  [foo.test.js] is such a name, although its
    suffix [.js] is an included extension. *)
Theorem ignored_substring_skipped
    (cwd : string) (fs : dir) (start_path : string) (max_depth : Z)
    (root indent : string) (st : state) (f : file)
    (ignore pre post : string) :
  In ignore IGNORED_FILES ->
  f_name f = (pre ++ ignore ++ post)%string ->
  file_step cwd start_path root indent st f = st /\
  get_project_structure cwd (without_ignored_files fs) start_path max_depth =
    get_project_structure cwd fs start_path max_depth /\
  ignored_file "foo.test.js" = true /\
  In (PyPath.suffix "foo.test.js") INCLUDED_EXTENSIONS.
Proof.
  intros Hin Hname. repeat split.
  - unfold file_step. rewrite Hname.
    now rewrite (ignored_file_substring ignore pre post Hin).
  - unfold get_project_structure. now rewrite run_without_ignored_files.
  - vm_compute. tauto.
Qed.

Lemma ignored_substring_skipped_witness :
  file_step Samples.cwd "proj" "proj" "" initial
    (Samples.text_file "foo.test.js" "test();") = initial /\
  get_project_structure Samples.cwd
    (without_ignored_files Samples.dotted_project) "proj" 4 =
  get_project_structure Samples.cwd Samples.dotted_project "proj" 4.
Proof.
  pose proof (ignored_substring_skipped Samples.cwd Samples.dotted_project
    "proj" 4 "proj" "" initial (Samples.text_file "foo.test.js" "test();")
    ".test." "foo" "js" ltac:(simpl; tauto) eq_refl) as [Hstep [Hsame _]].
  split; [exact Hstep|exact Hsame].
Defined.

(** *** Ignored directories *)

Lemma kept_dir_false (d : string) :
  kept_dir d = false <-> In d IGNORED_DIRS \/ startswith d "." = true.
Proof.
  unfold kept_dir. rewrite andb_false_iff, !negb_false_iff, mem_In. tauto.
Qed.

(** C7.  The text returned is the one returned for the same tree without
    the child directories, at any depth, whose name is in [IGNORED_DIRS] or
    begins with a dot.  In a directory that is not beyond the depth limit,
    the names left in [dirs] are those that are neither in [IGNORED_DIRS]
    nor begin with a dot, and the directory itself has its entry in
    [output] whatever [dirs] holds and whatever its own name is. *)
Theorem ignored_dirs_pruned
    (cwd : string) (fs : dir) (start_path : string) (max_depth : Z)
    (root : string) (dirs : list string) (files : list file) (st : state) :
  too_deep max_depth (level_of start_path root) = false ->
  get_project_structure cwd (without_ignored_dirs fs) start_path max_depth =
    get_project_structure cwd fs start_path max_depth /\
  (forall d,
     In d (fst (dir_step cwd start_path max_depth root dirs files st)) <->
     In d dirs /\ ~ (In d IGNORED_DIRS \/ startswith d "." = true)) /\
  exists rest,
    output (snd (dir_step cwd start_path max_depth root dirs files st)) =
    (output st ++ dir_entry start_path root :: rest)%list.
Proof.
  intros Hdepth. repeat split.
  - unfold get_project_structure, run.
    now rewrite !walk_spec, visits_without_ignored_dirs.
  - rewrite dir_step_spec, Hdepth in H. cbn [fst] in H.
    apply filter_In in H. tauto.
  - rewrite dir_step_spec, Hdepth in H. cbn [fst] in H.
    apply filter_In in H. destruct H as [_ Hk].
    rewrite <- kept_dir_false. congruence.
  - intros [Hin Hk]. rewrite dir_step_spec, Hdepth. cbn [fst].
    apply filter_In. split; [exact Hin|].
    destruct (kept_dir d) eqn:E; [reflexivity|].
    exfalso. apply Hk. now apply kept_dir_false.
  - rewrite dir_step_spec, Hdepth. cbn [snd visit_lines extend output].
    eexists. reflexivity.
Qed.

Lemma ignored_dirs_pruned_witness :
  get_project_structure Samples.cwd (without_ignored_dirs Samples.project)
    "proj" 4 =
  get_project_structure Samples.cwd Samples.project "proj" 4 /\
  exists rest,
    output (snd (dir_step Samples.cwd "node_modules" 4 "node_modules"
                   [".bin"; "lodash"] [] initial)) =
    (output initial ++ "node_modules/" :: rest)%list.
Proof.
  pose proof (ignored_dirs_pruned Samples.cwd Samples.project "proj" 4
    "proj" [] [] initial eq_refl) as [Hsame _].
  pose proof (ignored_dirs_pruned Samples.cwd Samples.project
    "node_modules" 4 "node_modules" [".bin"; "lodash"] [] initial eq_refl)
    as [_ [_ Hentry]].
  split; [exact Hsame|exact Hentry].
Defined.

(** *** The text returned *)



(** *** Determinism *)

Lemma visit_lists_equal (cwd start_path : string)
    (V V' : list (string * list file)) :
  Forall2 (fun v v' => fst v = fst v' /\ sorted (snd v) = sorted (snd v')) V V' ->
  flat_map (visit_lines start_path) V = flat_map (visit_lines start_path) V' /\
  flat_map (visit_blocks cwd start_path) V =
  flat_map (visit_blocks cwd start_path) V'.
Proof.
  induction 1 as [|[root files] [root' files'] V V' [Hroot Hfiles] _ [IHl IHb]];
    [split; reflexivity|].
  cbn [fst snd] in Hroot, Hfiles. subst root'.
  cbn [flat_map visit_lines visit_blocks]. unfold listed_files.
  rewrite Hfiles, IHl, IHb. split; reflexivity.
Qed.

(** C9.  Two calls in the same working directory, with the same start
    path and the same depth, on one state of the file system, return the
    same text.  One state is the same tree ([same_state_refl]), or more
    generally the same tree up to the order in which a directory lists its
    files: the text depends on the tree of directories, on the set of
    files of each directory and on what reading them gives. *)
Theorem builder_deterministic
    (cwd1 cwd2 : string) (fs1 fs2 : dir)
    (start_path1 start_path2 : string) (max_depth1 max_depth2 : Z) :
  cwd1 = cwd2 -> start_path1 = start_path2 -> max_depth1 = max_depth2 ->
  same_state fs1 fs2 ->
  get_project_structure cwd1 fs1 start_path1 max_depth1 =
  get_project_structure cwd2 fs2 start_path2 max_depth2.
Proof.
  intros <- <- <- Hsame. unfold get_project_structure, run.
  rewrite !walk_spec.
  destruct (visit_lists_equal cwd1 start_path1 _ _
              (visits_same_state start_path1 max_depth1 fs1 fs2 start_path1 Hsame))
    as [-> ->].
  reflexivity.
Qed.

Lemma builder_deterministic_witness :
  get_project_structure Samples.cwd Samples.shuffled_project "proj" 4 =
  get_project_structure Samples.cwd Samples.ordered_project "proj" 4.
Proof.
  apply (builder_deterministic Samples.cwd Samples.cwd
           Samples.shuffled_project Samples.ordered_project "proj" "proj" 4 4
           eq_refl eq_refl eq_refl).
  simpl. repeat split; right; (split; [apply perm_swap|]);
    repeat constructor; simpl; intuition discriminate.
Defined.

(** *** The notice of a skipped file *)

(** C10, as the code has it.  The notice of a file skipped as too large
    names it by its bare name and gives its size, and nothing of the
    directory it is in: two such files of one name have notices that differ
    in the size at most, and are the same line when the sizes are the same;
    the header of a file read to its end carries its path relative to the
    start path. *)
Theorem skip_notice_bare_name
    (cwd start_path root1 root2 : string) (f1 f2 : file) (size1 size2 : Z) :
  f_name f1 = f_name f2 ->
  f_getsize f1 = Ok size1 -> 102400 < size1 ->
  f_getsize f2 = Ok size2 -> 102400 < size2 ->
  block cwd start_path root1 f1 =
    [ nl ++ "File: " ++ f_name f1 ++ " (skipped - too large, "
         ++ format_1f size1 1024 ++ "KB)"; "" ]%string /\
  block cwd start_path root2 f2 =
    [ nl ++ "File: " ++ f_name f1 ++ " (skipped - too large, "
         ++ format_1f size2 1024 ++ "KB)"; "" ]%string /\
  (size1 = size2 ->
   block cwd start_path root1 f1 = block cwd start_path root2 f2) /\
  (forall root f size content,
     f_getsize f = Ok size -> size <= 102400 -> f_read f = Ok content ->
     f_name f <> "" ->
     exists rel_path,
       PyPath.relpath cwd (PyPath.join root (f_name f)) start_path = Ok rel_path /\
       hd "" (block cwd start_path root f) = nl ++ "File: " ++ rel_path).
Proof.
  intros Hname Hs1 Hbig1 Hs2 Hbig2.
  rewrite (block_oversized cwd start_path root1 f1 size1 Hs1 Hbig1).
  rewrite (block_oversized cwd start_path root2 f2 size2 Hs2 Hbig2).
  rewrite <- Hname. repeat split.
  - now intros ->.
  - intros root f size content Hsize Hsmall Hread Hnamed.
    destruct (block_read_named cwd start_path root f size content
                Hsize Hsmall Hread Hnamed) as [rel_path [Hrel Hblock]].
    exists rel_path. split; [exact Hrel|]. now rewrite Hblock.
Qed.

Lemma skip_notice_bare_name_witness :
  block Samples.cwd "proj" "proj/one" (Samples.sized_file "data.json" 204800) =
    [ nl ++ "File: data.json (skipped - too large, 200.0KB)"; "" ]%string /\
  block Samples.cwd "proj" "proj/one" (Samples.sized_file "data.json" 204800) =
  block Samples.cwd "proj" "proj/two" (Samples.sized_file "data.json" 204800) /\
  content_blocks Samples.cwd Samples.twin_project "proj" 4 =
    [ [ nl ++ "File: one/a.py"; dashes; "1"; dashes; "" ];
      [ nl ++ "File: data.json (skipped - too large, 200.0KB)"; "" ];
      [ nl ++ "File: two/a.py"; dashes; "2"; dashes; "" ];
      [ nl ++ "File: data.json (skipped - too large, 200.0KB)"; "" ] ]%string.
Proof.
  pose proof (skip_notice_bare_name Samples.cwd "proj" "proj/one" "proj/two"
    (Samples.sized_file "data.json" 204800)
    (Samples.sized_file "data.json" 204800) 204800 204800
    eq_refl eq_refl ltac:(lia) eq_refl ltac:(lia)) as [Hnotice [_ [Hsame _]]].
  split; [exact Hnotice|]. split; [exact (Hsame eq_refl)|]. reflexivity.
Defined.

(** C10, as it is worded, fails for two files of different sizes: the
    notices of [one/data.json] and [two/data.json] name them alike but
    report 200.0KB for the one and 300.0KB for the other. *)
Lemma same_name_notices_differ_in_size :
  let f1 := Samples.sized_file "data.json" 204800 in
  let f2 := Samples.sized_file "data.json" 307200 in
  f_name f1 = f_name f2 /\
  block Samples.cwd "proj" "proj/one" f1 =
    [ nl ++ "File: data.json (skipped - too large, 200.0KB)"; "" ]%string /\
  block Samples.cwd "proj" "proj/two" f2 =
    [ nl ++ "File: data.json (skipped - too large, 300.0KB)"; "" ]%string /\
  hd "" (block Samples.cwd "proj" "proj/one" f1) <>
  hd "" (block Samples.cwd "proj" "proj/two" f2).
Proof.
  cbv zeta.
  rewrite (block_oversized Samples.cwd "proj" "proj/one"
             (Samples.sized_file "data.json" 204800) 204800 eq_refl ltac:(lia)).
  rewrite (block_oversized Samples.cwd "proj" "proj/two"
             (Samples.sized_file "data.json" 307200) 307200 eq_refl ltac:(lia)).
  cbn [f_name Samples.sized_file hd].
  repeat split. discriminate.
Qed.

(* ================================================================== *)
(** ** Further properties of the builder *)

Import Depth.

(** *** The lines of the tree *)

Lemma repeat_snoc (u : string) (n : nat) : repeat u (S n) = repeat u n ++ u.
Proof.
  induction n as [|n IH]; cbn [repeat].
  - now rewrite StrFacts.app_empty.
  - cbn [repeat] in IH. now rewrite IH at 1; rewrite StrFacts.app_assoc.
Qed.

Lemma list_ascii_app (a b : string) :
  list_ascii_of_string (a ++ b) =
  (list_ascii_of_string a ++ list_ascii_of_string b)%list.
Proof. induction a as [|c a IH]; simpl; congruence. Qed.

(** [indent[:-4]] takes the last unit of the indentation away: its four
    code points are six bytes. *)
Lemma drop_last_unit (n : nat) :
  drop_last 4 (repeat indent_unit (S n)) = repeat indent_unit n.
Proof.
  rewrite repeat_snoc. unfold drop_last.
  rewrite list_ascii_app, rev_app_distr.
  assert (Hzero : forall l, drop_code_points 0 l = l) by (now intros [|c l]).
  change (drop_code_points 4
            (rev (list_ascii_of_string indent_unit)
               ++ rev (list_ascii_of_string (repeat indent_unit n)))%list)
    with (drop_code_points 0
            (rev (list_ascii_of_string (repeat indent_unit n)))).
  now rewrite Hzero, rev_involutive, string_of_list_ascii_of_string.
Qed.

(** The line of a directory, by its level. *)
Lemma dir_entry_at_level (start_path root : string) (k : nat) :
  level_of start_path root = Z.of_nat k ->
  dir_entry start_path root =
  match k with
  | O => PyPath.basename root ++ "/"
  | S j => repeat "│   " j ++ "├── " ++ PyPath.basename root ++ "/"
  end.
Proof.
  intros Hlevel. unfold dir_entry, indent_of. rewrite Hlevel, Nat2Z.id.
  destruct k as [|j]; [reflexivity|].
  assert (Hpos : (0 <? Z.of_nat (S j)) = true) by (apply Z.ltb_lt; lia).
  rewrite Hpos. now rewrite drop_last_unit.
Qed.

(** X1.  In a directory at level [k] that is not beyond the depth limit, the
    loop body appends the line of the directory, which is its base name and
    a slash, bare at level 0 and after [k - 1] units of indentation and the
    branch glyph otherwise, and then one line for each listed file: [k]
    units of indentation, the branch glyph and the name. *)
Theorem lines_by_level
    (cwd start_path : string) (max_depth : Z) (root : string)
    (dirs : list string) (files : list file) (st : state) (k : nat) :
  level_of start_path root = Z.of_nat k ->
  too_deep max_depth (Z.of_nat k) = false ->
  output (snd (dir_step cwd start_path max_depth root dirs files st)) =
    (output st
     ++ match k with
        | O => (PyPath.basename root ++ "/")%string
        | S j =>
            (repeat "│   " j ++ "├── " ++ PyPath.basename root ++ "/")%string
        end
     :: map (fun f => (repeat "│   " k ++ "├── " ++ f_name f)%string)
            (listed_files files))%list.
Proof.
  intros Hlevel Hdeep. rewrite dir_step_spec, Hlevel, Hdeep.
  cbn [snd extend output visit_lines]. f_equal. f_equal.
  - now apply dir_entry_at_level.
  - apply map_ext. intros f. unfold file_entry, indent_of.
    now rewrite Hlevel, Nat2Z.id.
Qed.

Lemma lines_by_level_witness :
  output (snd (dir_step Samples.cwd "proj" 4 "proj/src/lib" ["deep"]
                 [Samples.text_file "b.ts" "b"; Samples.text_file "a.ts" "a"]
                 initial)) =
  [ "Directory Structure:"; "│   ├── lib/"; "│   │   ├── a.ts";
    "│   │   ├── b.ts" ].
Proof.
  rewrite (lines_by_level Samples.cwd "proj" 4 "proj/src/lib" ["deep"]
             [Samples.text_file "b.ts" "b"; Samples.text_file "a.ts" "a"]
             initial 2 eq_refl eq_refl).
  reflexivity.
Defined.

(** *** Base names *)

Lemma rfind_sep_none (s : string) (i : Z) :
  contains PyPath.sep s = false -> rfind_from "/" s i = -1.
Proof.
  revert i. induction s as [|c s IH]; intros i H; [reflexivity|].
  pose proof (no_sep_startswith _ H) as Hp. unfold startswith in Hp.
  apply no_sep_head in H. destruct H as [_ Hs].
  cbn [rfind_from]. rewrite (IH (i + 1) Hs).
  change (String.prefix "/" (String c s)) with (String.prefix PyPath.sep (String c s)).
  now rewrite Hp.
Qed.

(** The last separator of [a + "/" + n], where [n] has none, is the one
    written out. *)
Lemma rfind_sep_last (a n : string) (i : Z) :
  0 <= i -> contains PyPath.sep n = false ->
  rfind_from "/" (a ++ "/" ++ n) i = i + len a.
Proof.
  intros Hi Hn. revert i Hi. induction a as [|c a IH]; intros i Hi.
  - change ("" ++ "/" ++ n) with (String "/" n). cbn [rfind_from].
    rewrite (rfind_sep_none n (i + 1) Hn).
    change (String.prefix "/" (String "/" n))
      with (if ascii_dec "/" "/" then String.prefix "" n else false).
    destruct (ascii_dec "/" "/") as [_|Hne]; [|congruence].
    unfold len. simpl. destruct n; simpl; lia.
  - change (String c a ++ "/" ++ n) with (String c (a ++ "/" ++ n)).
    cbn [rfind_from]. rewrite (IH (i + 1)) by lia.
    assert (Hge : (0 <=? i + 1 + len a) = true)
      by (apply Z.leb_le; unfold len; lia).
    rewrite Hge. unfold len. cbn [String.length]. lia.
Qed.

Lemma drop_app (a b : string) : drop (String.length a) (a ++ b) = b.
Proof. induction a as [|c a IH]; simpl; [now destruct b|exact IH]. Qed.

Lemma basename_after_sep (a n : string) :
  contains PyPath.sep n = false -> PyPath.basename (a ++ "/" ++ n) = n.
Proof.
  intros Hn. unfold PyPath.basename, rfind, PyPath.sep.
  rewrite rfind_sep_last by (lia || exact Hn).
  replace (Z.to_nat (0 + len a + 1)) with (String.length (a ++ "/"))
    by (rewrite StrFacts.app_length; unfold len; simpl; lia).
  rewrite <- (StrFacts.app_assoc a "/" n). apply drop_app.
Qed.

Lemma basename_plain (n : string) :
  contains PyPath.sep n = false -> PyPath.basename n = n.
Proof.
  intros Hn. unfold PyPath.basename, rfind, PyPath.sep.
  now rewrite rfind_sep_none.
Qed.

Lemma endswith_sep_split (s : string) :
  endswith s PyPath.sep = true -> exists a, s = a ++ "/".
Proof.
  induction s as [|c s IH]; [discriminate|].
  cbn [endswith]. intros H. apply orb_true_iff in H. destruct H as [H|H].
  - apply String.eqb_eq in H. exists "". exact H.
  - destruct (IH H) as [a ->]. now exists (String c a).
Qed.

Lemma basename_join (top n : string) :
  contains PyPath.sep n = false -> PyPath.basename (PyPath.join top n) = n.
Proof.
  intros Hn. unfold PyPath.join. rewrite (no_sep_startswith _ Hn).
  destruct (String.eqb_spec top "") as [->|Htop]; cbn [orb].
  - now apply basename_plain.
  - destruct (endswith top PyPath.sep) eqn:Hend.
    + destruct (endswith_sep_split _ Hend) as [a ->].
      rewrite StrFacts.app_assoc. now apply basename_after_sep.
    + now apply basename_after_sep.
Qed.

(** X2.  The directory that [os.walk] reaches from [top] through an entry
    named [n] has [n] for base name: at a level [k + 1] within the depth
    limit, its line is [k] units of indentation, the branch glyph, [n] and
    a slash. *)
Theorem subdirectory_line
    (cwd start_path : string) (max_depth : Z) (top n : string)
    (dirs : list string) (files : list file) (st : state) (k : nat) :
  contains PyPath.sep n = false ->
  level_of start_path (PyPath.join top n) = Z.of_nat (S k) ->
  too_deep max_depth (Z.of_nat (S k)) = false ->
  exists rest,
    output (snd (dir_step cwd start_path max_depth (PyPath.join top n)
                   dirs files st)) =
    (output st ++ (repeat "│   " k ++ "├── " ++ n ++ "/")%string :: rest)%list.
Proof.
  intros Hn Hlevel Hdeep. rewrite dir_step_spec, Hlevel, Hdeep.
  cbn [snd extend output visit_lines].
  rewrite (dir_entry_at_level _ _ (S k) Hlevel), (basename_join top n Hn).
  eexists. reflexivity.
Qed.

Lemma subdirectory_line_witness :
  exists rest,
    output (snd (dir_step Samples.cwd "proj" 4 (PyPath.join "proj/src" "lib")
                   [] [] initial)) =
    (output initial ++ "│   ├── lib/" :: rest)%list.
Proof.
  apply (subdirectory_line Samples.cwd "proj" 4 "proj/src" "lib" [] []
           initial 1 eq_refl eq_refl eq_refl).
Defined.

(** X3.  When the start directory can be listed and the depth is -1 or
    more, the first of the Structure Lines is the base name of the start
    path and a slash: the start path itself when it holds no separator,
    nothing but the slash when it ends with a separator. *)
Theorem root_line
    (n : string) (files : list file) (subs : list dir)
    (start_path : string) (max_depth : Z) :
  -1 <= max_depth ->
  let first := hd "" (structure_lines (Dir n true files subs) start_path max_depth) in
  first = PyPath.basename start_path ++ "/" /\
  (contains PyPath.sep start_path = false -> first = start_path ++ "/") /\
  (endswith start_path PyPath.sep = true -> first = "/").
Proof.
  intros Hdepth first.
  assert (Hfirst : first = PyPath.basename start_path ++ "/").
  { unfold first, structure_lines. cbn [visits].
    rewrite level_of_start.
    assert (Hdeep : too_deep max_depth 0 = false).
    { unfold too_deep. destruct (Z.eqb_spec max_depth (-1)); [reflexivity|].
      cbn [negb andb]. apply Z.ltb_ge. lia. }
    rewrite Hdeep. cbn [flat_map visit_lines app hd].
    now rewrite (dir_entry_at_level start_path start_path 0 (level_of_start _)). }
  split; [exact Hfirst|]. split.
  - intros Hplain. now rewrite Hfirst, basename_plain.
  - intros Hend. destruct (endswith_sep_split _ Hend) as [a Ha].
    rewrite Hfirst, Ha.
    rewrite <- (StrFacts.app_empty (a ++ "/")), StrFacts.app_assoc.
    now rewrite basename_after_sep.
Qed.

Lemma root_line_witness :
  hd "" (structure_lines Samples.project "proj/" 4) = "/" /\
  hd "" (structure_lines Samples.project "." (-1)) = "./".
Proof.
  unfold Samples.project. split.
  - refine (proj2 (proj2 (root_line "proj" _ _ "proj/" 4 _)) eq_refl). lia.
  - refine (proj1 (proj2 (root_line "proj" _ _ "." (-1) _)) eq_refl). lia.
Defined.

(** *** Nothing to list *)

Lemma level_of_nonneg (start_path root : string) : 0 <= level_of start_path root.
Proof. unfold level_of, count, PyPath.sep. apply count_scan_nonneg. Qed.

(** X4.  When the start directory cannot be listed, or when the depth is
    below -1, no directory is visited, whatever the tree holds: the text is
    the two headers and nothing more. *)
Theorem nothing_listed
    (cwd : string) (n : string) (listed : bool) (files : list file)
    (subs : list dir) (start_path : string) (max_depth : Z) :
  listed = false \/ max_depth < -1 ->
  get_project_structure cwd (Dir n listed files subs) start_path max_depth =
  "Directory Structure:" ++ nl ++ nl ++ "File Contents:" ++ nl.
Proof.
  intros Hnone. unfold get_project_structure. rewrite run_spec.
  assert (Hvisits : visits start_path max_depth start_path
                           (Dir n listed files subs) = []).
  { cbn [visits]. destruct Hnone as [->|Hdepth]; [reflexivity|].
    destruct listed; [|reflexivity].
    assert (Hdeep : too_deep max_depth (level_of start_path start_path) = true).
    { pose proof (level_of_nonneg start_path start_path).
      unfold too_deep. apply andb_true_iff. split.
      - apply negb_true_iff, Z.eqb_neq. lia.
      - apply Z.ltb_lt. lia. }
    now rewrite Hdeep. }
  unfold structure_lines, content_blocks, file_entries.
  rewrite Hvisits. reflexivity.
Qed.

Lemma nothing_listed_witness :
  get_project_structure Samples.cwd Samples.project "proj" (-2) =
  "Directory Structure:" ++ nl ++ nl ++ "File Contents:" ++ nl.
Proof.
  unfold Samples.project.
  apply (nothing_listed Samples.cwd "proj" true). right. lia.
Defined.

(** *** The files of a directory *)

Lemma filter_strongly_sorted (p : file -> bool) (l : list file) :
  StronglySorted name_le l -> StronglySorted name_le (filter p l).
Proof.
  induction 1 as [|f l Hl IH Hf]; simpl; [constructor|].
  destruct (p f); [|exact IH].
  constructor; [exact IH|].
  apply Forall_forall. intros g Hg. apply filter_In in Hg.
  rewrite Forall_forall in Hf. now apply Hf.
Qed.

Lemma filter_perm (p : file -> bool) (l l' : list file) :
  Permutation l l' -> Permutation (filter p l) (filter p l').
Proof.
  induction 1 as [|x l l' _ IH|x y l|l l' l'' _ IH1 _ IH2]; simpl.
  - constructor.
  - destruct (p x); [now constructor|exact IH].
  - destruct (p x), (p y); try reflexivity. apply perm_swap.
  - now transitivity (filter p l').
Qed.

(** X5.  The lines of the files of a directory come in the order of the
    names, whatever the order in which the directory lists them, and they
    are the lines of its files that hold no ignored substring and have an
    included suffix or an important name, each once. *)
Theorem files_in_name_order
    (cwd start_path : string) (max_depth : Z) (root : string)
    (dirs : list string) (files : list file) (st : state) :
  too_deep max_depth (level_of start_path root) = false ->
  exists listed,
    output (snd (dir_step cwd start_path max_depth root dirs files st)) =
      (output st ++ dir_entry start_path root
         :: map (file_entry start_path root) listed)%list /\
    StronglySorted name_le listed /\
    Permutation listed
      (filter (fun f => negb (ignored_file (f_name f))
                        && included_file (f_name f)) files).
Proof.
  intros Hdeep. exists (listed_files files). split; [|split].
  - now rewrite dir_step_spec, Hdeep.
  - apply filter_strongly_sorted, sorted_sorted.
  - unfold listed_files. apply filter_perm. symmetry. apply sorted_perm.
Qed.

Lemma files_in_name_order_witness :
  exists listed,
    output (snd (dir_step Samples.cwd "proj" 4 "proj" []
                   [ Samples.text_file "b.py" "b"; Samples.text_file "notes.md" "n";
                     Samples.text_file "a.py" "a" ] initial)) =
      (output initial ++ "proj/" :: map (file_entry "proj" "proj") listed)%list /\
    map f_name listed = ["a.py"; "b.py"].
Proof.
  destruct (files_in_name_order Samples.cwd "proj" 4 "proj" []
              [ Samples.text_file "b.py" "b"; Samples.text_file "notes.md" "n";
                Samples.text_file "a.py" "a" ] initial eq_refl)
    as [listed [Hout [Hsorted Hperm]]].
  exists listed. split; [exact Hout|].
  assert (Hl : listed = [Samples.text_file "a.py" "a"; Samples.text_file "b.py" "b"]).
  { apply sorted_unique.
    - exact Hsorted.
    - repeat constructor.
    - rewrite (Permutation_map f_name Hperm). vm_compute.
      repeat constructor; simpl; intuition discriminate.
    - rewrite Hperm. vm_compute. apply perm_swap. }
  now rewrite Hl.
Defined.

(** *** The suffix test *)

Section OneChar.
Variable c : ascii.

Lemma prefix_char (d : ascii) (s : string) :
  String.prefix (String c "") (String d s) = Ascii.eqb d c.
Proof.
  change (String.prefix (String c "") (String d s))
    with (if ascii_dec c d then String.prefix "" s else false).
  destruct (ascii_dec c d) as [<-|Hne].
  - rewrite Ascii.eqb_refl. now destruct s.
  - symmetry. apply Ascii.eqb_neq. congruence.
Qed.

Lemma contains_char_cons (d : ascii) (s : string) :
  contains (String c "") (String d s) =
  Ascii.eqb d c || contains (String c "") s.
Proof. cbn [contains]. now rewrite prefix_char. Qed.

(** What [rfind] finds for a one-character text: nothing, in a text
    without that character, or the place after which it occurs no more. *)
Lemma rfind_char_spec (s : string) :
  forall i, 0 <= i ->
  (rfind_from (String c "") s i = -1 /\ contains (String c "") s = false) \/
  (exists a b, s = a ++ String c b /\ contains (String c "") b = false /\
               rfind_from (String c "") s i = i + len a).
Proof.
  induction s as [|d s IH]; intros i Hi.
  - left. split; reflexivity.
  - cbn [rfind_from]. rewrite prefix_char, contains_char_cons.
    destruct (IH (i + 1) ltac:(lia)) as [[Hr Hc]|[a [b [Hs [Hb Hr]]]]].
    + rewrite Hr, Hc. cbn [Z.leb Z.compare].
      destruct (Ascii.eqb_spec d c) as [->|Hne].
      * right. exists "", s. repeat split; [exact Hc|unfold len; simpl; lia].
      * left. split; reflexivity.
    + right. exists (String d a), b. rewrite Hr.
      assert (Hge : (0 <=? i + 1 + len a) = true)
        by (apply Z.leb_le; unfold len; lia).
      rewrite Hge. repeat split.
      * now rewrite Hs.
      * exact Hb.
      * unfold len. cbn [String.length]. lia.
Qed.

End OneChar.

(** The suffix of a name is empty or a dot and an extension that is not
    empty and holds no dot, after a stem that is not empty. *)
Lemma suffix_shape (name : string) :
  PyPath.suffix name = "" \/
  exists stem ext,
    name = stem ++ "." ++ ext /\ stem <> "" /\ ext <> "" /\
    contains "." ext = false /\ PyPath.suffix name = "." ++ ext.
Proof.
  unfold PyPath.suffix, rfind.
  destruct (rfind_char_spec "."%char name 0 ltac:(lia))
    as [[Hr _]|[a [b [Hs [Hb Hr]]]]].
  - rewrite Hr. now left.
  - rewrite Hr, Z.add_0_l.
    destruct ((0 <? len a) && (len a <? len name - 1)) eqn:Hcond; [|now left].
    apply andb_true_iff in Hcond. destruct Hcond as [Ha Hlen].
    apply Z.ltb_lt in Ha. apply Z.ltb_lt in Hlen.
    right. exists a, b. subst name. unfold len in *.
    rewrite StrFacts.app_length in Hlen. cbn [String.length] in Hlen.
    repeat split.
    + intros ->. simpl in Ha. lia.
    + intros ->. simpl in Hlen. lia.
    + exact Hb.
    + rewrite Nat2Z.id. apply drop_app.
Qed.

(** X6.  No name has the suffix [.config.js], for a suffix holds one dot
    at most: the entry [.config.js] of [INCLUDED_EXTENSIONS] admits no file,
    and the test on the suffix is the one on the other entries. *)
Theorem config_js_never_matches (name : string) :
  PyPath.suffix name <> ".config.js" /\
  mem (PyPath.suffix name) INCLUDED_EXTENSIONS =
  mem (PyPath.suffix name)
      (filter (fun e => negb (String.eqb e ".config.js")) INCLUDED_EXTENSIONS).
Proof.
  assert (Hne : PyPath.suffix name <> ".config.js").
  { destruct (suffix_shape name) as [->|[stem [ext [_ [_ [_ [Hext ->]]]]]]];
      [discriminate|].
    intros E. injection E as ->. discriminate. }
  split; [exact Hne|].
  rewrite mem_filter. apply String.eqb_neq in Hne. now rewrite Hne.
Qed.

(** X7.  The test on the important names never decides: each of these
    names has an included suffix, so a file is admitted if and only if its
    suffix is included. *)
Theorem important_names_have_included_suffix (name : string) :
  included_file name = mem (PyPath.suffix name) INCLUDED_EXTENSIONS.
Proof.
  unfold included_file.
  destruct (mem name IMPORTANT_FILES) eqn:Himp; [|apply orb_false_r].
  rewrite orb_true_r. symmetry.
  apply mem_In in Himp. simpl in Himp.
  repeat (destruct Himp as [<-|Himp]; [reflexivity|]).
  contradiction.
Qed.

(** *** The depth limit *)

Lemma subseq_refl {A : Type} (l : list A) : subseq l l.
Proof. induction l; [apply subseq_nil|now apply subseq_keep]. Qed.

Lemma subseq_nil_l {A : Type} (l : list A) : subseq [] l.
Proof. induction l; [apply subseq_nil|now apply subseq_skip]. Qed.

Lemma subseq_app {A : Type} (l1 l2 m1 m2 : list A) :
  subseq l1 l2 -> subseq m1 m2 -> subseq (l1 ++ m1) (l2 ++ m2).
Proof.
  induction 1 as [|x l1 l2 _ IH|x l1 l2 _ IH]; intros Hm; simpl.
  - exact Hm.
  - apply subseq_skip. now apply IH.
  - apply subseq_keep. now apply IH.
Qed.

Lemma subseq_flat_map {A B : Type} (f : A -> list B) (l1 l2 : list A) :
  subseq l1 l2 -> subseq (flat_map f l1) (flat_map f l2).
Proof.
  induction 1; simpl.
  - apply subseq_nil.
  - change (flat_map f l1) with ([] ++ flat_map f l1)%list.
    apply subseq_app; [apply subseq_nil_l|assumption].
  - apply subseq_app; [apply subseq_refl|assumption].
Qed.

(** A limit that cuts less visits more. *)
Lemma visits_monotone (start_path : string) (max_depth max_depth' : Z) :
  max_depth' = -1 \/ (max_depth <> -1 /\ max_depth <= max_depth') ->
  forall d top,
  subseq (visits start_path max_depth top d) (visits start_path max_depth' top d).
Proof.
  intros Hle.
  assert (Hdeep : forall l, too_deep max_depth' l = true ->
                            too_deep max_depth l = true).
  { intros l H. unfold too_deep in *. apply andb_true_iff in H.
    destruct H as [Hne Hlt]. apply negb_true_iff, Z.eqb_neq in Hne.
    apply Z.ltb_lt in Hlt. destruct Hle as [->|[Hm Hm']]; [contradiction|].
    apply andb_true_iff. split.
    - now apply negb_true_iff, Z.eqb_neq.
    - apply Z.ltb_lt. lia. }
  induction d as [n listed files subs IH] using dir_ind. intros top.
  cbn [visits]. destruct listed; [|apply subseq_nil].
  destruct (too_deep max_depth' (level_of start_path top)) eqn:E'.
  - rewrite (Hdeep _ E'). apply subseq_nil.
  - destruct (too_deep max_depth (level_of start_path top)).
    + apply subseq_nil_l.
    + apply subseq_keep.
      induction IH as [|s subs Hs _ IHsubs]; [apply subseq_nil|].
      cbn [flat_map]. apply subseq_app; [|exact IHsubs].
      destruct (kept_dir (d_name s)); [apply Hs|apply subseq_nil].
Qed.

(** X8.  A greater depth, or the depth -1 for no limit, takes nothing away:
    the lines of [output] and of [file_contents] under the smaller depth
    are among those under the greater one, in the same order. *)
Theorem deeper_lists_more
    (cwd : string) (fs : dir) (start_path : string) (max_depth max_depth' : Z) :
  max_depth' = -1 \/ (max_depth <> -1 /\ max_depth <= max_depth') ->
  subseq (output (run cwd fs start_path max_depth))
         (output (run cwd fs start_path max_depth')) /\
  subseq (file_contents (run cwd fs start_path max_depth))
         (file_contents (run cwd fs start_path max_depth')).
Proof.
  intros Hle. unfold run. rewrite !walk_spec.
  pose proof (visits_monotone start_path max_depth max_depth' Hle fs start_path)
    as Hsub.
  cbn [extend output file_contents initial]. split.
  - apply subseq_app; [apply subseq_refl|now apply subseq_flat_map].
  - apply subseq_app; [apply subseq_refl|now apply subseq_flat_map].
Qed.

Lemma deeper_lists_more_witness :
  subseq (output (run Samples.cwd Samples.project "proj" 0))
         (output (run Samples.cwd Samples.project "proj" 4)) /\
  subseq (file_contents (run Samples.cwd Samples.project "proj" 0))
         (file_contents (run Samples.cwd Samples.project "proj" 4)).
Proof.
  apply (deeper_lists_more Samples.cwd Samples.project "proj" 0 4).
  right. split; [discriminate|lia].
Defined.

(** Without a limit the level plays no part. *)
Lemma visits_unlimited (start_path : string) (d : dir) :
  forall top,
  visits start_path (-1) top d = visits_within None top d.
Proof.
  induction d as [n listed files subs IH] using dir_ind. intros top.
  cbn [visits visits_within].
  change (too_deep (-1) (level_of start_path top)) with false.
  destruct listed; [|reflexivity]. f_equal.
  induction IH as [|s subs Hs _ IHsubs]; [reflexivity|].
  cbn [flat_map]. rewrite IHsubs. now rewrite Hs.
Qed.

Lemma descend_snoc (names : list string) :
  forall top n,
  descend top (names ++ [n]) = PyPath.join (descend top names) n.
Proof.
  induction names as [|m names IH]; intros top n; [reflexivity|].
  cbn [descend app]. apply IH.
Qed.

(** Below a start path without a separator, in a tree of well-named
    directories, the level read off the path is the number of steps down:
    the walk is the one with a counter. *)
Lemma visits_counted (start_path : string) (max_depth : Z) :
  start_path <> "" -> contains PyPath.sep start_path = false ->
  forall d names budget,
  named_tree d ->
  Forall (fun n => n <> "" /\ contains PyPath.sep n = false) names ->
  max_depth = Z.of_nat (List.length names + budget) ->
  visits start_path max_depth (descend start_path names) d =
  visits_within (Some budget) (descend start_path names) d.
Proof.
  intros Hne Hsep.
  induction d as [n listed files subs IH] using dir_ind.
  intros names budget Hnamed Hnames Hdepth.
  cbn [visits visits_within]. destruct listed; [|reflexivity].
  rewrite (level_of_descent start_path names Hne Hsep Hnames).
  assert (Hdeep : too_deep max_depth (Z.of_nat (List.length names)) = false).
  { unfold too_deep. apply andb_false_iff. right. apply Z.ltb_ge. lia. }
  rewrite Hdeep. f_equal.
  cbn [named_tree] in Hnamed.
  induction IH as [|s subs Hs _ IHsubs];
    [now destruct budget|].
  destruct Hnamed as [[Hs1 [Hs2 _]] [Hnamed_s Hnamed_subs]].
  specialize (IHsubs Hnamed_subs).
  assert (Hnames' : Forall (fun n => n <> "" /\ contains PyPath.sep n = false)
                           (names ++ [d_name s])).
  { apply Forall_app. split; [exact Hnames|]. now repeat constructor. }
  cbn [flat_map]. rewrite <- descend_snoc.
  destruct budget as [|b].
  - destruct (kept_dir (d_name s)); [|exact IHsubs].
    rewrite IHsubs. destruct s as [n' listed' files' subs'].
    cbn [visits]. destruct listed'; [|reflexivity].
    rewrite (level_of_descent start_path _ Hne Hsep Hnames').
    assert (Hcut : too_deep max_depth
                     (Z.of_nat (List.length (names ++ [d_name (Dir n' true files' subs')])))
                   = true).
    { rewrite length_app. cbn [List.length]. unfold too_deep.
      apply andb_true_iff. split.
      - apply negb_true_iff, Z.eqb_neq. lia.
      - apply Z.ltb_lt. lia. }
    now rewrite Hcut.
  - rewrite IHsubs. destruct (kept_dir (d_name s)); [|reflexivity].
    rewrite (Hs (names ++ [d_name s])%list b Hnamed_s Hnames');
      [reflexivity|].
    rewrite length_app. cbn [List.length]. lia.
Qed.

(** X9.  With a start path that holds no separator and directories named
    as a file system names them, a depth of [max_depth >= 0] lists the
    directories no more than [max_depth] steps below the start directory,
    and the depth -1 lists them all, whatever the start path: the lists of
    the run are those of a walk that counts its steps. *)
Theorem depth_counts_steps
    (cwd : string) (fs : dir) (start_path : string) (max_depth : Z) :
  (max_depth = -1 \/
   (0 <= max_depth /\ start_path <> "" /\
    contains PyPath.sep start_path = false /\ named_tree fs)) ->
  let budget := if max_depth =? -1 then None else Some (Z.to_nat max_depth) in
  let V := visits_within budget start_path fs in
  run cwd fs start_path max_depth =
  State ("Directory Structure:" :: flat_map (visit_lines start_path) V)
        ((nl ++ "File Contents:" ++ nl)
           :: flat_map (visit_blocks cwd start_path) V).
Proof.
  intros Hcase budget V. unfold run. rewrite walk_spec.
  assert (HV : visits start_path max_depth start_path fs = V).
  { unfold V, budget. destruct Hcase as [->|[Hpos [Hne [Hsep Hnamed]]]].
    - apply visits_unlimited.
    - destruct (Z.eqb_spec max_depth (-1)); [lia|].
      apply (visits_counted start_path max_depth Hne Hsep fs [] (Z.to_nat max_depth));
        [exact Hnamed|constructor|cbn [List.length]; lia]. }
  now rewrite HV.
Qed.

Lemma depth_counts_steps_witness :
  run Samples.cwd Samples.project "proj" 1 =
  State ("Directory Structure:"
           :: flat_map (visit_lines "proj")
                (visits_within (Some 1%nat) "proj" Samples.project))
        ((nl ++ "File Contents:" ++ nl)
           :: flat_map (visit_blocks Samples.cwd "proj")
                (visits_within (Some 1%nat) "proj" Samples.project)).
Proof.
  apply (depth_counts_steps Samples.cwd Samples.project "proj" 1).
  right. split; [lia|]. split; [discriminate|]. split; [reflexivity|].
  simpl. unfold entry_name.
  repeat split; (discriminate || reflexivity).
Defined.

(** *** The path in the header of a file *)

Module RelPath.
Import PyPath Paths.

Lemma split_not_nil (s : string) : split "/" s <> [].
Proof.
  destruct s as [|c s]; simpl; [discriminate|].
  destruct (Ascii.eqb c "/"); [discriminate|].
  destruct (split "/" s); discriminate.
Qed.

Lemma split_app_sep (a b : string) :
  split "/" (a ++ String "/" b) = (split "/" a ++ split "/" b)%list.
Proof.
  induction a as [|c a IH]; [reflexivity|].
  change (String c a ++ String "/" b) with (String c (a ++ String "/" b)).
  cbn [split]. rewrite IH.
  destruct (Ascii.eqb c "/"); [reflexivity|].
  destruct (split "/" a) as [|w ws] eqn:E; [now apply split_not_nil in E|].
  reflexivity.
Qed.

Lemma split_plain (n : string) :
  contains sep n = false -> split "/" n = [n].
Proof.
  induction n as [|c n IH]; intros H; [reflexivity|].
  apply no_sep_head in H. destruct H as [Hc Hn].
  cbn [split]. rewrite (IH Hn).
  assert (E : Ascii.eqb c "/" = false) by now apply Ascii.eqb_neq.
  now rewrite E.
Qed.

Lemma split_no_sep (s : string) :
  Forall (fun c => contains sep c = false) (split "/" s).
Proof.
  induction s as [|c s IH]; [now repeat constructor|].
  cbn [split]. destruct (Ascii.eqb c "/") eqn:E.
  - constructor; [reflexivity|exact IH].
  - destruct (split "/" s) as [|w ws].
    { constructor; [|constructor].
      unfold sep. now rewrite contains_char_cons, E. }
    inversion IH as [|? ? Hw Hws]; subst.
    constructor; [|exact Hws].
    unfold sep. rewrite contains_char_cons, E. exact Hw.
Qed.

Lemma step_entry (k : nat) (acc : list string) (n : string) :
  entry_name n -> normpath_step k acc n = (acc ++ [n])%list.
Proof.
  intros (Hne & _ & Hdot & Hdots). unfold normpath_step.
  apply String.eqb_neq in Hne, Hdot, Hdots.
  now rewrite Hne, Hdot, Hdots.
Qed.

Lemma step_positive (k : nat) (acc : list string) (c : string) :
  (1 <= k)%nat -> normpath_step k acc c = normpath_step 1 acc c.
Proof.
  intros Hk. unfold normpath_step.
  destruct k as [|k]; [lia|]. reflexivity.
Qed.

Lemma comps_positive (k : nat) (s : string) :
  (1 <= k)%nat -> comps k s = comps 1 s.
Proof.
  intros Hk. unfold comps. generalize (@nil string) as acc.
  induction (split "/" s) as [|c l IH]; intros acc; [reflexivity|].
  cbn [fold_left]. rewrite (step_positive k acc c Hk). apply IH.
Qed.

(** The components kept are not empty and hold no separator. *)
Lemma comps_plain (k : nat) (s : string) :
  Forall (fun c => c <> "" /\ contains sep c = false) (comps k s).
Proof.
  unfold comps.
  assert (H : forall l acc,
            Forall (fun c => contains sep c = false) l ->
            Forall (fun c => c <> "" /\ contains sep c = false) acc ->
            Forall (fun c => c <> "" /\ contains sep c = false)
                   (fold_left (normpath_step k) l acc)).
  { induction l as [|c l IH]; intros acc Hl Hacc; [exact Hacc|].
    inversion Hl as [|? ? Hc Hl']; subst. cbn [fold_left]. apply IH; [exact Hl'|].
    unfold normpath_step.
    destruct (String.eqb_spec c "") as [->|Hne]; [exact Hacc|].
    cbn [orb]. destruct (String.eqb c "."); [exact Hacc|].
    match goal with |- Forall _ (if ?b then _ else _) => destruct b end.
    - apply Forall_app. split; [exact Hacc|]. now repeat constructor.
    - clear - Hacc. induction Hacc as [|x acc Hx Hacc IHacc]; [constructor|].
      destruct acc; [constructor|]. cbn [removelast] in *.
      constructor; [exact Hx|exact IHacc]. }
  apply H; [apply split_no_sep|constructor].
Qed.

Lemma endswith_app (a b : string) :
  b <> "" -> endswith (a ++ b) sep = endswith b sep.
Proof.
  intros Hb. induction a as [|c a IH]; [reflexivity|].
  change (String c a ++ b) with (String c (a ++ b)).
  cbn [endswith]. rewrite IH.
  assert (E : String.eqb (String c (a ++ b)) sep = false).
  { apply String.eqb_neq. intros E. injection E as _ E.
    destruct a; [simpl in E; contradiction|discriminate]. }
  rewrite E. cbn [orb].
  destruct b as [|d b]; [contradiction|].
  cbn [endswith]. destruct (String.eqb (String d b) sep); reflexivity.
Qed.

Lemma join_relative (a x : string) :
  startswith x sep = false -> join a x = glue a ++ x.
Proof.
  intros Hx. unfold join, glue. rewrite Hx.
  destruct (String.eqb a "" || endswith a sep); [reflexivity|].
  now rewrite StrFacts.app_assoc.
Qed.

Lemma startswith_app (a b : string) :
  a <> "" -> startswith (a ++ b) sep = startswith a sep.
Proof.
  unfold startswith, sep. destruct a as [|c a]; [contradiction|]. intros _.
  change (String c a ++ b) with (String c (a ++ b)).
  now rewrite !prefix_char.
Qed.

Lemma glue_nonempty (x : string) :
  x <> "" -> glue x = if endswith x sep then x else x ++ sep.
Proof.
  intros Hx. unfold glue. apply String.eqb_neq in Hx. now rewrite Hx.
Qed.

Lemma endswith_glue (a : string) :
  a <> "" -> endswith (glue a) sep = true.
Proof.
  intros Ha. rewrite (glue_nonempty a Ha).
  destruct (endswith a sep) eqn:E; [exact E|].
  now rewrite (endswith_app a sep) by discriminate.
Qed.

Lemma glue_glue (a b : string) : glue (glue a ++ b) = glue a ++ glue b.
Proof.
  destruct (String.eqb_spec b "") as [->|Hb].
  - change (glue "") with "". rewrite !StrFacts.app_empty.
    destruct (String.eqb_spec a "") as [->|Ha]; [reflexivity|].
    assert (Hg : glue a <> "").
    { rewrite (glue_nonempty a Ha).
      destruct (endswith a sep); [exact Ha|]. destruct a; discriminate. }
    rewrite (glue_nonempty _ Hg). now rewrite (endswith_glue a Ha).
  - assert (Hne : glue a ++ b <> "")
      by (destruct (glue a); [exact Hb|discriminate]).
    rewrite (glue_nonempty _ Hne), (glue_nonempty b Hb).
    rewrite (endswith_app (glue a) b Hb).
    destruct (endswith b sep); [reflexivity|].
    now rewrite StrFacts.app_assoc.
Qed.

Lemma join_starts_relative (top n : string) :
  startswith top sep = false -> startswith n sep = false ->
  startswith (join top n) sep = false.
Proof.
  intros Htop Hn. rewrite (join_relative top n Hn).
  destruct (String.eqb_spec (glue top) "") as [E|E]; [now rewrite E|].
  rewrite (startswith_app _ _ E). unfold glue in *.
  destruct (String.eqb_spec top "") as [->|Hne]; [contradiction|].
  cbn [orb] in *. destruct (endswith top sep); [exact Htop|].
  now rewrite (startswith_app _ _ Hne).
Qed.

(** Going one entry down and anchoring can be done in either order. *)
Lemma anchored_join (cwd top n : string) :
  startswith n sep = false ->
  anchored cwd (join top n) = join (anchored cwd top) n.
Proof.
  intros Hn. unfold anchored.
  destruct (startswith top sep) eqn:Htop.
  - assert (Hne : top <> "") by (intros ->; discriminate).
    rewrite (join_relative top n Hn).
    assert (Hg : glue top <> "").
    { unfold glue. destruct (String.eqb top "" || endswith top sep);
        [exact Hne|]. destruct top; discriminate. }
    rewrite (startswith_app _ _ Hg).
    assert (Hs : startswith (glue top) sep = true).
    { unfold glue. destruct (String.eqb top "" || endswith top sep);
        [exact Htop|]. now rewrite (startswith_app _ _ Hne). }
    now rewrite Hs.
  - rewrite (join_starts_relative top n Htop Hn).
    rewrite (join_relative top n Hn).
    assert (Hrel : startswith (glue top ++ n) sep = false).
    { rewrite <- (join_relative top n Hn).
      now apply join_starts_relative. }
    rewrite (join_relative cwd _ Hrel), (join_relative cwd top Htop).
    rewrite (join_relative _ n Hn), glue_glue.
    now rewrite !StrFacts.app_assoc.
Qed.

(** One entry down is one component more. *)
Lemma comps_join (k : nat) (top n : string) :
  entry_name n -> comps k (join top n) = (comps k top ++ [n])%list.
Proof.
  intros Hn. pose proof Hn as (Hne & Hsep & _).
  rewrite (join_relative top n (no_sep_startswith _ Hsep)).
  unfold comps, glue.
  destruct (String.eqb_spec top "") as [->|Htop]; cbn [orb].
  - cbn [append]. rewrite (split_plain n Hsep). cbn [split fold_left].
    rewrite (step_entry k [] n Hn). reflexivity.
  - destruct (endswith top sep) eqn:Hend.
    + destruct (endswith_sep_split _ Hend) as [a ->].
      rewrite StrFacts.app_assoc.
      change ("/" ++ n) with (String "/" n).
      change (a ++ "/") with (a ++ String "/" "").
      rewrite !split_app_sep, (split_plain n Hsep), !fold_left_app.
      cbn [split fold_left].
      rewrite (step_entry k _ n Hn).
      unfold normpath_step at 2. cbn [String.eqb orb]. reflexivity.
    + rewrite StrFacts.app_assoc.
      change (sep ++ n) with (String "/" n).
      rewrite split_app_sep, (split_plain n Hsep), fold_left_app.
      cbn [fold_left]. now rewrite (step_entry k _ n Hn).
Qed.

Lemma concat_split (l : list string) :
  Forall (fun c => c <> "" /\ contains sep c = false) l ->
  filter nonempty (split "/" (String.concat "/" l)) = l.
Proof.
  induction 1 as [|a l [Ha Hs] Hl IH]; [reflexivity|].
  assert (Hkeep : nonempty a = true)
    by (unfold nonempty; apply negb_true_iff, String.eqb_neq, Ha).
  destruct l as [|b l].
  - cbn [String.concat]. rewrite (split_plain a Hs). cbn [filter].
    now rewrite Hkeep.
  - change (String.concat "/" (a :: b :: l))
      with (a ++ String "/" (String.concat "/" (b :: l))).
    rewrite split_app_sep, (split_plain a Hs), filter_app, IH.
    cbn [filter]. now rewrite Hkeep.
Qed.

(** The components of the absolute path of [x] are those that [normpath]
    keeps of [x] anchored at the working directory. *)
Lemma abspath_components (cwd x : string) :
  startswith (anchored cwd x) sep = true ->
  filter nonempty (split "/" (abspath cwd x)) = comps 1 (anchored cwd x).
Proof.
  intros Habs. unfold abspath. fold (anchored cwd x).
  set (s := anchored cwd x) in *. unfold normpath.
  assert (Hs : String.eqb s "" = false)
    by (apply String.eqb_neq; intros E; rewrite E in Habs; discriminate).
  rewrite Hs, Habs.
  set (k := if startswith s (repeat sep 2) && negb (startswith s (repeat sep 3))
            then 2%nat else 1%nat).
  assert (Hk : (1 <= k)%nat) by (unfold k; destruct (_ && _); lia).
  fold (comps k s). rewrite (comps_positive k s Hk).
  pose proof (concat_split _ (comps_plain 1 s)) as Hround.
  unfold PyStr.join.
  assert (Hk' : k = 1%nat \/ k = 2%nat) by (unfold k; destruct (_ && _); auto).
  destruct Hk' as [-> | ->]; cbn [repeat append String.eqb]; cbn [split Ascii.eqb];
    cbn [filter nonempty String.eqb negb]; exact Hround.
Qed.

Lemma commonprefix_app (l x : list string) : commonprefix l (l ++ x) = l.
Proof.
  induction l as [|a l IH]; [now destruct x|].
  cbn [commonprefix app]. now rewrite String.eqb_refl, IH.
Qed.

Lemma skipn_length_app {A : Type} (l x : list A) :
  skipn (List.length l) (l ++ x) = x.
Proof. induction l as [|a l IH]; [reflexivity|exact IH]. Qed.

Lemma join_all_names (a : string) (p : list string) :
  a <> "" -> endswith a sep = false ->
  Forall entry_name p ->
  fold_left join p a = String.concat "/" (a :: p).
Proof.
  intros Ha Hend Hp. revert a Ha Hend.
  induction Hp as [|n p Hn _ IH]; intros a Ha Hend; [reflexivity|].
  pose proof Hn as (Hne & Hsep & _).
  cbn [fold_left].
  assert (Hjoin : join a n = a ++ "/" ++ n).
  { rewrite (join_relative a n (no_sep_startswith _ Hsep)). unfold glue.
    apply String.eqb_neq in Ha. rewrite Ha, Hend. cbn [orb].
    now rewrite StrFacts.app_assoc. }
  rewrite Hjoin, IH.
  - destruct p as [|m p]; cbn [String.concat]; [reflexivity|].
    now rewrite !StrFacts.app_assoc.
  - destruct a; [now apply String.eqb_neq in Ha|discriminate].
  - rewrite (endswith_app a ("/" ++ n)) by discriminate.
    change ("/" ++ n) with (String "/" n). cbn [endswith].
    rewrite (no_sep_endswith _ Hsep), orb_false_r.
    apply String.eqb_neq. intros E. injection E as E. contradiction.
Qed.

Lemma comps_descend (cwd : string) (names : list string) :
  Forall entry_name names ->
  forall top,
  comps 1 (anchored cwd (descend top names)) =
  (comps 1 (anchored cwd top) ++ names)%list.
Proof.
  induction 1 as [|n names Hn _ IH]; intros top.
  - now rewrite app_nil_r.
  - cbn [descend]. rewrite IH.
    pose proof Hn as (_ & Hsep & _).
    rewrite (anchored_join cwd top n (no_sep_startswith _ Hsep)).
    rewrite (comps_join 1 _ n Hn). now rewrite <- List.app_assoc.
Qed.

Lemma anchored_absolute (cwd x : string) :
  startswith cwd sep = true -> startswith (anchored cwd x) sep = true.
Proof.
  intros Hcwd. unfold anchored.
  destruct (startswith x sep) eqn:Hx; [exact Hx|].
  rewrite (join_relative cwd x Hx).
  assert (Hne : cwd <> "") by (intros ->; discriminate).
  assert (Hg : glue cwd <> "").
  { unfold glue. destruct (String.eqb cwd "" || endswith cwd sep);
      [exact Hne|]. destruct cwd; discriminate. }
  rewrite (startswith_app _ _ Hg). unfold glue.
  destruct (String.eqb cwd "" || endswith cwd sep); [exact Hcwd|].
  now rewrite (startswith_app _ _ Hne).
Qed.

(** [relpath] of a file reached through [names], from the start path. *)
Lemma relpath_below (cwd start_path : string) (names : list string)
    (file : string) :
  startswith cwd sep = true ->
  Forall entry_name names -> entry_name file ->
  relpath cwd (join (descend start_path names) file) start_path =
  Ok (String.concat "/" (names ++ [file])).
Proof.
  intros Hcwd Hnames Hfile.
  assert (Hall : Forall entry_name (names ++ [file]))
    by (apply Forall_app; split; [exact Hnames|constructor; [exact Hfile|constructor]]).
  replace (join (descend start_path names) file)
    with (descend start_path (names ++ [file])) by apply descend_snoc.
  unfold relpath.
  assert (Hpath : String.eqb (descend start_path (names ++ [file])) "" = false).
  { apply String.eqb_neq. rewrite descend_snoc.
    pose proof Hfile as (Hne & Hsep & _).
    rewrite (join_relative _ file (no_sep_startswith _ Hsep)).
    destruct (glue _); [exact Hne|discriminate]. }
  rewrite Hpath.
  rewrite !abspath_components by now apply anchored_absolute.
  rewrite (comps_descend cwd _ Hall start_path).
  rewrite commonprefix_app, skipn_length_app, Nat.sub_diag. cbn [List.repeat app].
  destruct (names ++ [file])%list as [|a p] eqn:E.
  { now destruct names. }
  f_equal. unfold join_all.
  inversion Hall as [|? ? Ha Hp]; subst.
  pose proof Ha as (Hne & Hsep & _).
  apply join_all_names; [exact Hne|now apply no_sep_endswith|exact Hp].
Qed.

End RelPath.

(** X10.  In a process whose working directory is an absolute path, the
    header of a file of no more than 102400 bytes that reads well, in the
    directory reached from the start path through the entries [names], is
    ["File: "] and these names and the name of the file joined by slashes,
    whatever the start path is. *)
Theorem header_is_path_below_start
    (cwd start_path : string) (names : list string) (f : file)
    (size : Z) (content : string) :
  startswith cwd PyPath.sep = true ->
  Forall entry_name names -> entry_name (f_name f) ->
  f_getsize f = Ok size -> size <= 102400 -> f_read f = Ok content ->
  try_read cwd start_path (descend start_path names) f =
  Ok [ nl ++ "File: " ++ join "/" (names ++ [f_name f]);
       "----------------------------------------";
       content;
       "----------------------------------------";
       "" ]%string.
Proof.
  intros Hcwd Hnames Hfile Hsize Hsmall Hread.
  unfold try_read. rewrite Hsize. cbn [bind].
  change (100 * 1024) with 102400.
  apply Z.ltb_ge in Hsmall. rewrite Hsmall, Hread. cbn [bind].
  now rewrite (RelPath.relpath_below cwd start_path names (f_name f)
                 Hcwd Hnames Hfile).
Qed.

Lemma header_is_path_below_start_witness :
  try_read Samples.cwd "proj/" (descend "proj/" ["src"; "lib"])
           (Samples.text_file "util.ts" "export {};") =
  Ok [ nl ++ "File: src/lib/util.ts";
       "----------------------------------------";
       "export {};";
       "----------------------------------------";
       "" ]%string.
Proof.
  apply (header_is_path_below_start Samples.cwd "proj/" ["src"; "lib"]
           (Samples.text_file "util.ts" "export {};") 10 "export {};");
    try reflexivity; try lia;
    repeat constructor; (discriminate || reflexivity).
Defined.

(* ================================================================== *)
(** ** Properties of the script *)

(** *** The name of the file written *)

Module Stamp.
Import Script Paths.

Lemma digit_code (x : Z) :
  0 <= x <= 9 -> N_of_ascii (digit x) = Z.to_N (48 + x).
Proof.
  intros Hx. unfold digit. apply N_ascii_embedding. lia.
Qed.

Lemma digit_inj (a b : Z) :
  0 <= a <= 9 -> 0 <= b <= 9 -> digit a = digit b -> a = b.
Proof.
  intros Ha Hb E. apply (f_equal N_of_ascii) in E.
  rewrite !digit_code in E by assumption. lia.
Qed.

Lemma pad2_inj (a b : Z) :
  0 <= a <= 99 -> 0 <= b <= 99 -> pad2 a = pad2 b -> a = b.
Proof.
  intros Ha Hb E. unfold pad2 in E. injection E as E1 E2.
  apply digit_inj in E1; [|Z.div_mod_to_equations; lia..].
  apply digit_inj in E2; [|Z.div_mod_to_equations; lia..].
  Z.div_mod_to_equations. lia.
Qed.

Lemma pad4_inj (a b : Z) :
  0 <= a <= 9999 -> 0 <= b <= 9999 -> pad4 a = pad4 b -> a = b.
Proof.
  intros Ha Hb E. unfold pad4, pad2 in E. injection E as E1 E2 E3 E4.
  apply digit_inj in E1; [|Z.div_mod_to_equations; lia..].
  apply digit_inj in E2; [|Z.div_mod_to_equations; lia..].
  apply digit_inj in E3; [|Z.div_mod_to_equations; lia..].
  apply digit_inj in E4; [|Z.div_mod_to_equations; lia..].
  Z.div_mod_to_equations. lia.
Qed.

(** Two texts that begin with parts of one length are equal part by
    part. *)
Lemma app_inj_length (a a' b b' : string) :
  String.length a = String.length a' ->
  a ++ b = a' ++ b' -> a = a' /\ b = b'.
Proof.
  revert a'. induction a as [|c a IH]; intros [|c' a'] Hlen E;
    try discriminate; [now split|].
  injection E as -> E. injection Hlen as Hlen.
  destruct (IH a' Hlen E) as [-> ->]. now split.
Qed.

Lemma strftime_inj (t1 t2 : datetime) :
  valid_datetime t1 -> valid_datetime t2 ->
  strftime t1 = strftime t2 -> t1 = t2.
Proof.
  intros (Hy1 & Hm1 & Hd1 & HH1 & HM1 & HS1) (Hy2 & Hm2 & Hd2 & HH2 & HM2 & HS2).
  unfold strftime. intros E.
  apply app_inj_length in E; [|reflexivity]. destruct E as [Ey E].
  apply app_inj_length in E; [|reflexivity]. destruct E as [Em E].
  apply app_inj_length in E; [|reflexivity]. destruct E as [Ed E].
  apply app_inj_length in E; [|reflexivity]. destruct E as [_ E].
  apply app_inj_length in E; [|reflexivity]. destruct E as [EH E].
  apply app_inj_length in E; [|reflexivity]. destruct E as [EM ES].
  apply pad4_inj in Ey; [|lia..].
  apply pad2_inj in Em; [|lia..]. apply pad2_inj in Ed; [|lia..].
  apply pad2_inj in EH; [|lia..]. apply pad2_inj in EM; [|lia..].
  apply pad2_inj in ES; [|lia..].
  destruct t1, t2. cbn in *. congruence.
Qed.

Lemma output_file_relative (t : datetime) :
  startswith (output_file t) PyPath.sep = false.
Proof. reflexivity. Qed.

Lemma occurrences_app (c : ascii) (a b : string) :
  occurrences c (a ++ b) = (occurrences c a + occurrences c b)%nat.
Proof. induction a as [|d a IH]; simpl; [reflexivity|]. rewrite IH. lia. Qed.

Lemma contains_split (sub s : string) :
  contains sub s = true -> exists a b, s = a ++ sub ++ b.
Proof.
  induction s as [|d s IH]; cbn [contains]; intros H;
    apply orb_true_iff in H; destruct H as [H|H]; try discriminate.
  - destruct (prefix_split _ _ H) as [b Hb]. now exists "", b.
  - destruct (prefix_split _ _ H) as [b Hb]. now exists "", b.
  - destruct (IH H) as [a [b ->]]. now exists (String d a), b.
Qed.

(** A text that occurs in another has no more of any character. *)
Lemma contains_occurrences (sub s : string) (c : ascii) :
  contains sub s = true -> (occurrences c sub <= occurrences c s)%nat.
Proof.
  intros H. destruct (contains_split _ _ H) as [a [b ->]].
  rewrite !occurrences_app. lia.
Qed.

Lemma occurrences_digit (c : ascii) (x : Z) (s : string) :
  no_digit c -> 0 <= x <= 9 ->
  occurrences c (String (digit x) s) = occurrences c s.
Proof.
  intros Hc Hx. cbn [occurrences].
  assert (E : Ascii.eqb (digit x) c = false).
  { apply Ascii.eqb_neq. intros E. unfold no_digit in Hc.
    rewrite <- E, digit_code in Hc by exact Hx. lia. }
  now rewrite E.
Qed.

Lemma occurrences_pad2 (c : ascii) (n : Z) (s : string) :
  no_digit c -> 0 <= n <= 99 ->
  occurrences c (pad2 n ++ s) = occurrences c s.
Proof.
  intros Hc Hn. unfold pad2. cbn [append].
  rewrite !occurrences_digit;
    first [exact Hc | reflexivity | Z.div_mod_to_equations; lia].
Qed.

Lemma occurrences_strftime (c : ascii) (t : datetime) :
  valid_datetime t -> no_digit c -> c <> "_"%char ->
  occurrences c (strftime t) = O.
Proof.
  intros (Hy & Hm & Hd & HH & HM & HS) Hc Hu. unfold strftime, pad4.
  cbn [append].
  rewrite !occurrences_digit;
    try first [exact Hc | Z.div_mod_to_equations; lia].
  rewrite !occurrences_pad2;
    try first [exact Hc | lia | Z.div_mod_to_equations; lia].
  change ("_" ++ pad2 (hour t) ++ pad2 (minute t) ++ pad2 (second t))
    with (String "_" (pad2 (hour t) ++ pad2 (minute t) ++ pad2 (second t))).
  cbn [occurrences].
  assert (E : Ascii.eqb "_" c = false) by (apply Ascii.eqb_neq; congruence).
  rewrite E. cbn [Nat.add].
  rewrite !occurrences_pad2; try first [exact Hc | lia].
  rewrite <- (StrFacts.app_empty (pad2 (second t))).
  rewrite occurrences_pad2; [reflexivity|exact Hc|lia].
Qed.

(** How often a character that is no digit occurs in the name of the
    file written. *)
Lemma occurrences_output_file (c : ascii) (t : datetime) :
  valid_datetime t -> no_digit c -> c <> "_"%char ->
  occurrences c (output_file t) =
  (occurrences c "project_structure_" + occurrences c ".txt")%nat.
Proof.
  intros Ht Hc Hu. unfold output_file.
  rewrite !occurrences_app, (occurrences_strftime c t Ht Hc Hu). lia.
Qed.

End Stamp.

Lemma rfind_char_none (c : ascii) (s : string) (i : Z) :
  0 <= i -> contains (String c "") s = false ->
  rfind_from (String c "") s i = -1.
Proof.
  intros Hi Hs.
  destruct (rfind_char_spec c s i Hi) as [[Hr _]|[a [b [E _]]]]; [exact Hr|].
  rewrite E in Hs.
  change (a ++ String c b) with (a ++ String c "" ++ b) in Hs.
  now rewrite contains_app in Hs.
Qed.

Lemma rfind_char_last (c : ascii) (a b : string) (i : Z) :
  0 <= i -> contains (String c "") b = false ->
  rfind_from (String c "") (a ++ String c b) i = i + len a.
Proof.
  intros Hi Hb. revert i Hi. induction a as [|d a IH]; intros i Hi.
  - cbn [append rfind_from].
    rewrite (rfind_char_none c b (i + 1)) by (lia || exact Hb).
    rewrite prefix_char, Ascii.eqb_refl. unfold len. simpl. lia.
  - change (String d a ++ String c b) with (String d (a ++ String c b)).
    cbn [rfind_from]. rewrite (IH (i + 1)) by lia.
    assert (Hge : (0 <=? i + 1 + len a) = true)
      by (apply Z.leb_le; unfold len; lia).
    rewrite Hge. unfold len. cbn [String.length]. lia.
Qed.

(** A name made of a stem, a dot and an extension without a dot has the
    dot and the extension for suffix. *)
Lemma suffix_of_extension (stem ext : string) :
  stem <> "" -> ext <> "" -> contains "." ext = false ->
  PyPath.suffix (stem ++ "." ++ ext) = "." ++ ext.
Proof.
  intros Hstem Hext Hdot. unfold PyPath.suffix, rfind.
  change (stem ++ "." ++ ext) with (stem ++ String "." ext).
  rewrite (rfind_char_last "." stem ext 0) by (lia || exact Hdot).
  rewrite Z.add_0_l.
  assert (Hcond : (0 <? len stem) && (len stem <? len (stem ++ String "." ext) - 1)
                  = true).
  { unfold len. rewrite StrFacts.app_length. cbn [String.length].
    apply andb_true_iff. split; apply Z.ltb_lt.
    - destruct stem; [contradiction|]. simpl. lia.
    - destruct ext; [contradiction|]. simpl. lia. }
  rewrite Hcond. unfold len. rewrite Nat2Z.id. apply drop_app.
Qed.

(** X12.  Two runs of the script from one place write to the same file if
    and only if they start in the same second: the name of the file tells
    the second, and a later run never writes over the file of an earlier
    second. *)
Theorem output_path_tells_second (e1 e2 : Script.env) :
  Script.cwd e1 = Script.cwd e2 ->
  Script.script_file e1 = Script.script_file e2 ->
  Script.valid_datetime (Script.now e1) ->
  Script.valid_datetime (Script.now e2) ->
  (Script.output_path e1 = Script.output_path e2 <->
   Script.now e1 = Script.now e2).
Proof.
  intros Hcwd Hfile Hv1 Hv2. unfold Script.output_path.
  rewrite Hcwd, Hfile. split; [|now intros ->].
  rewrite !RelPath.join_relative by apply Stamp.output_file_relative.
  intros E. apply Stamp.app_inj_length in E; [|reflexivity].
  destruct E as [_ E]. unfold Script.output_file in E.
  apply Stamp.app_inj_length in E; [|reflexivity]. destruct E as [_ E].
  apply Stamp.app_inj_length in E; [|reflexivity]. destruct E as [E _].
  now apply Stamp.strftime_inj.
Qed.

Lemma output_path_tells_second_witness :
  let e (s : Z) :=
    Script.Env "/home/dev" "tools/copycode.py" true Samples.project
      (Script.Datetime 2026 11 3 14 5 s) (Ok tt) (Ok tt) in
  Script.output_path (e 9) =
    "/home/dev/tools/project_structure_20261103_140509.txt" /\
  (Script.output_path (e 9) = Script.output_path (e 10) <->
   Script.now (e 9) = Script.now (e 10)).
Proof.
  cbv zeta. split; [reflexivity|].
  apply output_path_tells_second; try reflexivity;
    unfold Script.valid_datetime; cbn; lia.
Defined.

(** X13.  The file that the script writes is one that the builder lists:
    its name holds no ignored substring and its suffix is [.txt].  A
    snapshot left in a directory that a later run visits goes into the
    later snapshot. *)
Theorem snapshot_file_is_listed
    (cwd start_path root : string) (st : state) (f : file)
    (t : Script.datetime) :
  Script.valid_datetime t ->
  f_name f = Script.output_file t ->
  ignored_file (f_name f) = false /\
  PyPath.suffix (f_name f) = ".txt" /\
  emitted cwd start_path root st f.
Proof.
  intros Ht Hname.
  assert (Habsent : forall ig c,
            Paths.no_digit c -> c <> "_"%char ->
            (Paths.occurrences c "project_structure_"
             + Paths.occurrences c ".txt"
             < Paths.occurrences c ig)%nat ->
            contains ig (Script.output_file t) = false).
  { intros ig c Hc Hu Hocc.
    destruct (contains ig (Script.output_file t)) eqn:E; [|reflexivity].
    apply (Stamp.contains_occurrences _ _ c) in E.
    rewrite (Stamp.occurrences_output_file c t Ht Hc Hu) in E. lia. }
  assert (Hignored : ignored_file (f_name f) = false).
  { rewrite Hname. unfold ignored_file. cbn [existsb IGNORED_FILES].
    rewrite (Habsent "setupTests." "T"%char), (Habsent "reportWebVitals." "W"%char),
            (Habsent ".test." "."%char), (Habsent ".spec." "."%char),
            (Habsent "types.d.ts" "y"%char), (Habsent ".gitignore" "g"%char);
      try reflexivity; try discriminate;
      try (unfold Paths.no_digit; simpl; lia); simpl; lia. }
  assert (Hsuffix : PyPath.suffix (f_name f) = ".txt").
  { rewrite Hname. unfold Script.output_file.
    rewrite <- StrFacts.app_assoc.
    apply (suffix_of_extension _ "txt"); [|discriminate|reflexivity].
    discriminate. }
  split; [exact Hignored|]. split; [exact Hsuffix|].
  apply emitted_iff_included; [exact Hignored|].
  unfold included_file. now rewrite Hsuffix.
Qed.

Lemma snapshot_file_is_listed_witness :
  emitted Samples.cwd "proj" "proj" initial
    (Samples.text_file "project_structure_20261103_140509.txt" "Directory Structure:").
Proof.
  apply (snapshot_file_is_listed Samples.cwd "proj" "proj" initial _
           (Script.Datetime 2026 11 3 14 5 9)).
  - unfold Script.valid_datetime. cbn. lia.
  - reflexivity.
Defined.

(** *** One run after another *)

Module ScriptFacts.
Import Script.

Lemma read_write_same (w : world) (path content : string) :
  read_file (write_file w path content) path = Some content.
Proof.
  unfold read_file, write_file. cbn [files find fst snd].
  now rewrite String.eqb_refl.
Qed.

Lemma read_write_other (w : world) (path other content : string) :
  other <> path ->
  read_file (write_file w path content) other = read_file w other.
Proof.
  intros Hne. unfold read_file, write_file. cbn [files find fst snd].
  destruct (String.eqb_spec path other) as [->|_]; [contradiction|reflexivity].
Qed.

(** The file that a run writes to tells the second in which it started. *)
Lemma output_path_inj (e1 e2 : env) :
  cwd e1 = cwd e2 -> script_file e1 = script_file e2 ->
  valid_datetime (now e1) -> valid_datetime (now e2) ->
  output_path e1 = output_path e2 -> now e1 = now e2.
Proof.
  intros Hcwd Hfile Hv1 Hv2. unfold output_path. rewrite Hcwd, Hfile.
  rewrite !RelPath.join_relative by apply Stamp.output_file_relative.
  intros E. apply Stamp.app_inj_length in E; [|reflexivity].
  destruct E as [_ E]. unfold output_file in E.
  apply Stamp.app_inj_length in E; [|reflexivity]. destruct E as [_ E].
  apply Stamp.app_inj_length in E; [|reflexivity]. destruct E as [E _].
  now apply Stamp.strftime_inj.
Qed.

(** A run leaves every file but its own as it was. *)
Lemma main_other_files (e : env) (rt : runtime) (directory : string)
    (given_depth : option Z) (w : world) (path : string) :
  path <> output_path e ->
  read_file (fst (main e rt directory given_depth w)) path = read_file w path.
Proof.
  intros Hne. unfold main.
  destruct (dir_exists e); cbn [negb]; [|reflexivity].
  destruct (build e rt directory given_depth) as [text|x]; [|reflexivity].
  destruct (copy_outcome e) as [[]|x]; [|reflexivity].
  destruct (open_outcome e) as [[]|x]; [|reflexivity].
  destruct (write_outcome rt) as [|x reached]; cbn [fst].
  - change (read_file (write_file (write_file
              (World (stdout w) (Some text) (files w)) (output_path e) "")
              (output_path e) text) path = read_file w path).
    now rewrite !read_write_other.
  - now rewrite !read_write_other.
Qed.

(** What a run that got to open its file leaves in it. *)
Lemma main_own_file (e : env) (rt : runtime) (directory : string)
    (given_depth : option Z) (w : world) (text : string) :
  dir_exists e = true -> build e rt directory given_depth = Ok text ->
  copy_outcome e = Ok tt -> open_outcome e = Ok tt ->
  read_file (fst (main e rt directory given_depth w)) (output_path e) =
  Some (match write_outcome rt with
        | Whole => text
        | Partial _ reached => take reached text
        end).
Proof.
  intros Hexists Hbuild Hcopy Hopen. unfold main.
  rewrite Hexists, Hbuild, Hcopy, Hopen. cbn [negb].
  destruct (write_outcome rt) as [|x reached]; cbn [fst].
  - change (read_file (write_file (write_file
              (World (stdout w) (Some text) (files w)) (output_path e) "")
              (output_path e) text) (output_path e) = Some text).
    apply read_write_same.
  - apply read_write_same.
Qed.

(** A run that ends with status 0 got everything done. *)
Lemma main_exited_0 (e : env) (rt : runtime) (directory : string)
    (given_depth : option Z) (w : world) :
  snd (main e rt directory given_depth w) = Exited 0 ->
  dir_exists e = true /\
  (exists text, build e rt directory given_depth = Ok text) /\
  copy_outcome e = Ok tt /\ open_outcome e = Ok tt /\ write_outcome rt = Whole.
Proof.
  unfold main.
  destruct (dir_exists e); cbn [negb]; [|discriminate].
  destruct (build e rt directory given_depth) as [text|x]; [|discriminate].
  destruct (copy_outcome e) as [[]|x]; [|discriminate].
  destruct (open_outcome e) as [[]|x]; [|discriminate].
  destruct (write_outcome rt) as [|x reached]; [|discriminate].
  intros _. repeat split. now exists text.
Qed.

End ScriptFacts.

(** X11.  After a run of the script that ended with status 0, its file
    holds the text of the builder.  A later run from the same place that
    starts in another second leaves that file as it is, however the later
    run ends.  A later run in the same second that gets to open its file
    opens the same one: the earlier snapshot is replaced by the later text,
    or, when writing fails, by the part of the later text that reached the
    file.  No run touches a file other than its own. *)
Theorem later_run_and_earlier_snapshot
    (e1 e2 : Script.env) (rt1 rt2 : Script.runtime)
    (directory1 directory2 : string) (depth1 depth2 : option Z)
    (w : Script.world) :
  Script.cwd e1 = Script.cwd e2 ->
  Script.script_file e1 = Script.script_file e2 ->
  Script.valid_datetime (Script.now e1) ->
  Script.valid_datetime (Script.now e2) ->
  let first := Script.main e1 rt1 directory1 depth1 w in
  let second := Script.main e2 rt2 directory2 depth2 (fst first) in
  snd first = Script.Exited 0 ->
  exists text1,
    Script.build e1 rt1 directory1 depth1 = Ok text1 /\
    Script.read_file (fst first) (Script.output_path e1) = Some text1 /\
    (Script.now e1 <> Script.now e2 ->
     Script.read_file (fst second) (Script.output_path e1) = Some text1) /\
    (Script.now e1 = Script.now e2 ->
     forall text2,
     Script.dir_exists e2 = true ->
     Script.build e2 rt2 directory2 depth2 = Ok text2 ->
     Script.copy_outcome e2 = Ok tt -> Script.open_outcome e2 = Ok tt ->
     Script.read_file (fst second) (Script.output_path e1) =
       Some (match Script.write_outcome rt2 with
             | Script.Whole => text2
             | Script.Partial _ reached => Script.take reached text2
             end)) /\
    (forall path, path <> Script.output_path e2 ->
     Script.read_file (fst second) path = Script.read_file (fst first) path).
Proof.
  intros Hcwd Hfile Hv1 Hv2 first second Hdone.
  destruct (ScriptFacts.main_exited_0 _ _ _ _ _ Hdone)
    as [Hexists [[text1 Hbuild] [Hcopy [Hopen Hwrite]]]].
  assert (Hfirst : Script.read_file (fst first) (Script.output_path e1)
                   = Some text1).
  { unfold first.
    rewrite (ScriptFacts.main_own_file e1 rt1 directory1 depth1 w text1
               Hexists Hbuild Hcopy Hopen).
    now rewrite Hwrite. }
  exists text1. split; [exact Hbuild|]. split; [exact Hfirst|].
  split; [|split].
  - intros Hlater. unfold second.
    rewrite ScriptFacts.main_other_files; [exact Hfirst|].
    intros Hsame. apply Hlater.
    now apply ScriptFacts.output_path_inj.
  - intros Hsame text2 Hexists2 Hbuild2 Hcopy2 Hopen2.
    assert (Hpath : Script.output_path e1 = Script.output_path e2)
      by (unfold Script.output_path; now rewrite Hcwd, Hfile, Hsame).
    rewrite Hpath. unfold second.
    now apply ScriptFacts.main_own_file.
  - intros path Hother. unfold second.
    now apply ScriptFacts.main_other_files.
Qed.

Lemma later_run_and_earlier_snapshot_witness :
  let e (s : Z) :=
    Script.Env "/home/dev" "tools/copycode.py" true Samples.project
      (Script.Datetime 2026 11 3 14 5 s) (Ok tt) (Ok tt) in
  let python := Script.Runtime 1000 (Exception "maximum recursion depth exceeded") in
  let full := Exception "[Errno 28] No space left on device" in
  let first := Script.main (e 9) (python Script.Whole) "proj" None
                 (Script.World [] None []) in
  let later := Script.main (e 10) (python Script.Whole) "proj" (Some 0) (fst first) in
  let again := Script.main (e 9) (python (Script.Partial full 0)) "proj" None
                 (fst first) in
  Script.read_file (fst later)
      "/home/dev/tools/project_structure_20261103_140509.txt" =
    Some (get_project_structure "/home/dev" Samples.project "proj" 4) /\
  Script.read_file (fst again)
      "/home/dev/tools/project_structure_20261103_140509.txt" = Some "".
Proof.
  cbv zeta. split.
  - destruct (later_run_and_earlier_snapshot
                (Script.Env "/home/dev" "tools/copycode.py" true Samples.project
                   (Script.Datetime 2026 11 3 14 5 9) (Ok tt) (Ok tt))
                (Script.Env "/home/dev" "tools/copycode.py" true Samples.project
                   (Script.Datetime 2026 11 3 14 5 10) (Ok tt) (Ok tt))
                (Script.Runtime 1000 (Exception "maximum recursion depth exceeded")
                   Script.Whole)
                (Script.Runtime 1000 (Exception "maximum recursion depth exceeded")
                   Script.Whole)
                "proj" "proj" None (Some 0) (Script.World [] None [])
                eq_refl eq_refl
                ltac:(unfold Script.valid_datetime; cbn; lia)
                ltac:(unfold Script.valid_datetime; cbn; lia)
                eq_refl)
      as [text1 [Hbuild [_ [Hkept _]]]].
    vm_compute in Hbuild. injection Hbuild as <-.
    exact (Hkept ltac:(discriminate)).
  - destruct (later_run_and_earlier_snapshot
                (Script.Env "/home/dev" "tools/copycode.py" true Samples.project
                   (Script.Datetime 2026 11 3 14 5 9) (Ok tt) (Ok tt))
                (Script.Env "/home/dev" "tools/copycode.py" true Samples.project
                   (Script.Datetime 2026 11 3 14 5 9) (Ok tt) (Ok tt))
                (Script.Runtime 1000 (Exception "maximum recursion depth exceeded")
                   Script.Whole)
                (Script.Runtime 1000 (Exception "maximum recursion depth exceeded")
                   (Script.Partial
                      (Exception "[Errno 28] No space left on device") 0))
                "proj" "proj" None None (Script.World [] None [])
                eq_refl eq_refl
                ltac:(unfold Script.valid_datetime; cbn; lia)
                ltac:(unfold Script.valid_datetime; cbn; lia)
                eq_refl)
      as [text1 [Hbuild [_ [_ [Hreplaced _]]]]].
    exact (Hreplaced eq_refl text1 eq_refl Hbuild eq_refl eq_refl).
Defined.
